(** * himawari-nc: the object-key builder and the band fetcher of
    [download_files.py], embedded in Rocq.

  The development follows the script top-down:
  - [Datetime]: the fragment of Python's naive [datetime.datetime] the script
    uses (the seven fields, [<], [strftime] with the numeric directives);
  - [Text]: integer formatting ([f'{n:02d}']), [str.format] with keyword
    fields, [os.path.basename];
  - [KeyBuilder]: [get_object_name_dict] and [OBJECT_NAME_PATTERN];
  - [Fetcher]: [download_files_for_date] over an explicit world (local
    files, standard output, the environment that answers the S3 client and
    [open], and the log of the client's calls). *)

From Stdlib Require Import ZArith NArith Ascii String.
From stdpp Require Import base numbers strings pretty list gmap.

(** ** Python's naive [datetime] *)
Module Datetime.

(** The fields of a [datetime.datetime] without [tzinfo].  The constructor
    of the Python class refuses negative components, hence [N]. *)
Record datetime : Type := mk_datetime {
  year : N; month : N; day : N;
  hour : N; minute : N; second : N; microsecond : N
}.

Definition is_leap (y : N) : bool :=
  ((y mod 4 =? 0) && (negb (y mod 100 =? 0) || (y mod 400 =? 0)))%N.

Definition days_in_month (y m : N) : N :=
  (if m =? 2 then (if is_leap y then 29 else 28)
   else if (m =? 4) || (m =? 6) || (m =? 9) || (m =? 11) then 30
   else 31)%N.

(** The range checks of the [datetime] constructor. *)
Definition valid (d : datetime) : Prop :=
  (1 ≤ year d ≤ 9999 ∧ 1 ≤ month d ≤ 12 ∧
   1 ≤ day d ≤ days_in_month (year d) (month d) ∧
   hour d < 24 ∧ minute d < 60 ∧ second d < 60 ∧
   microsecond d < 1000000)%N.

#[global] Instance valid_dec d : Decision (valid d) :=
  ltac:(unfold valid; apply _).

(** [datetime.__lt__] compares the tuples of the seven fields. *)
Definition to_tuple (d : datetime) : list N :=
  [year d; month d; day d; hour d; minute d; second d; microsecond d].

Fixpoint tuple_lt (a b : list N) : bool :=
  match a, b with
  | x :: a', y :: b' =>
      if (x <? y)%N then true
      else if (y <? x)%N then false
      else tuple_lt a' b'
  | [], _ :: _ => true
  | _, [] => false
  end.

Definition lt (d1 d2 : datetime) : bool :=
  tuple_lt (to_tuple d1) (to_tuple d2).

(** [datetime(y, m, d)]: the time of day defaults to midnight. *)
Definition of_date (y m d : N) : datetime := mk_datetime y m d 0 0 0 0.

(** The truncation of a datetime to its minute. *)
Definition minute_of (d : datetime) : N * N * N * N * N :=
  (year d, month d, day d, hour d, minute d).

Definition minute_granular (d : datetime) : Prop :=
  second d = 0%N ∧ microsecond d = 0%N.

(** *** Chronological position, after [datetime.toordinal] *)






(** *** [strftime] *)

Fixpoint zeros (n : nat) : string :=
  match n with O => "" | S n' => String "0" (zeros n') end.

(** Left-pad with ["0"] up to a width ([str.zfill] on unsigned digits). *)
Definition zfill (w : nat) (s : string) : string :=
  zeros (w - String.length s) +:+ s.

(** The directives the script uses, as the C library behind [strftime]
    renders them: [%Y] is the year as a plain decimal number, hence four
    digits from 1000 on and fewer below (["999"], ["1"]); [%m], [%d], [%H],
    [%M] are two digits, zero-padded.  Any other directive is left in
    place. *)
Definition directive (c : ascii) (d : datetime) : string :=
  if Ascii.eqb c "Y" then pretty (year d)
  else if Ascii.eqb c "m" then zfill 2 (pretty (month d))
  else if Ascii.eqb c "d" then zfill 2 (pretty (day d))
  else if Ascii.eqb c "H" then zfill 2 (pretty (hour d))
  else if Ascii.eqb c "M" then zfill 2 (pretty (minute d))
  else String "%" (String c "").

Fixpoint strftime (d : datetime) (fmt : string) : string :=
  match fmt with
  | "" => ""
  | String c rest =>
      if Ascii.eqb c "%" then
        match rest with
        | "" => "%"
        | String k rest' => directive k d +:+ strftime d rest'
        end
      else String c (strftime d rest)
  end.

End Datetime.

(** ** Text helpers of the Python standard library *)
Module Text.
Import Datetime.

(** [format(n, '0{w}d')]: sign-aware zero padding to a minimum width. *)
Definition format_0d (w : nat) (n : Z) : string :=
  let sign := if (n <? 0)%Z then "-" else "" in
  let digits := pretty (Z.abs_N n) in
  sign +:+ zeros (w - String.length sign - String.length digits) +:+ digits.

(** [str.format] applied to the keyword arguments [kw], for templates
    whose replacement fields are plain [{name}] (no conversion, no format spec, no doubled braces).  [None]
    stands for the [KeyError] of an absent name or the [ValueError] of an
    unbalanced brace.  [field] is the name being read, most recent
    character first. *)
Fixpoint format_go (tpl : string) (field : option string)
    (kw : gmap string string) : option string :=
  match tpl with
  | "" => match field with None => Some "" | Some _ => None end
  | String c rest =>
      match field with
      | None =>
          if Ascii.eqb c "{" then format_go rest (Some "") kw
          else if Ascii.eqb c "}" then None
          else String c <$> format_go rest None kw
      | Some name =>
          if Ascii.eqb c "}" then
            v ← kw !! String.rev name;
            (String.append v) <$> format_go rest None kw
          else format_go rest (Some (String c name)) kw
      end
  end.

Definition format (tpl : string) (kw : gmap string string) : option string :=
  format_go tpl None kw.

(** [os.path.basename p = p[p.rfind('/') + 1:]].  [cur] is the text after
    the last slash met so far. *)
Fixpoint basename_go (p cur : string) : string :=
  match p with
  | "" => cur
  | String c rest =>
      if Ascii.eqb c "/" then basename_go rest rest else basename_go rest cur
  end.

Definition basename (p : string) : string := basename_go p p.

(** [Path(dir) / name] for a relative, non-empty [name]. *)
Definition path_join (dir name : string) : string := dir +:+ "/" +:+ name.

(** A dict literal [{k1: v1, ...}]: entries are stored left to right. *)
Definition dict_literal (kvs : list (string * string)) : gmap string string :=
  foldl (λ m kv, <[kv.1 := kv.2]> m) ∅ kvs.

End Text.

(** ** The key builder *)
Module KeyBuilder.
Import Datetime Text.

Definition HIMAWARI_8_BUCKET : string := "noaa-himawari8".
Definition HIMAWARI_9_BUCKET : string := "noaa-himawari9".

Definition OBJECT_NAME_PATTERN : string :=
  "AHI-L1b-FLDK/{year}/{month}/{day}/{hour}{minute}/" +:+
  "HS_{satellite_code}_{year}{month}{day}_{hour}{minute}_{band}_FLDK_{resolution}_S0101.DAT.bz2".

(** The instant [dt.datetime(2022, 10, 28)] both comparisons use. *)
Definition CUTOVER : datetime := of_date 2022 10 28.

Definition get_object_name_dict (download_datetime : datetime) (obs_band : Z)
    : gmap string string :=
  let resolution := if (obs_band <=? 4)%Z then "R10" else "R20" in
  dict_literal [
    ("year", strftime download_datetime "%Y");
    ("month", strftime download_datetime "%m");
    ("day", strftime download_datetime "%d");
    ("hour", strftime download_datetime "%H");
    ("minute", strftime download_datetime "%M");
    ("satellite_code", if lt download_datetime CUTOVER then "H08" else "H09");
    ("band", "B" +:+ format_0d 2 obs_band);
    ("resolution", resolution);
    ("bucket_name",
      if lt download_datetime CUTOVER then HIMAWARI_8_BUCKET
      else HIMAWARI_9_BUCKET)
  ].

(** [OBJECT_NAME_PATTERN] formatted with the fields of
    [get_object_name_dict]. *)
Definition object_name (download_datetime : datetime) (obs_band : Z)
    : option string :=
  format OBJECT_NAME_PATTERN (get_object_name_dict download_datetime obs_band).

End KeyBuilder.

(** ** The fetcher *)
Module Fetcher.
Import Datetime Text KeyBuilder.

Definition bytes : Type := list Byte.byte.

(** What escapes from [download_files_for_date]: the errors of formatting
    and of the dict lookup, the [OSError] of an [open] that fails, and
    whatever the client raises. *)
Inductive exn : Type :=
| FormatError
| KeyError (key : string)
| OSError (msg : string)
| ClientError (msg : string).

(** One call of [download_fileobj] on a file object: it returns after
    writing the whole body, or raises after writing some prefix of it
    (possibly nothing). *)
Inductive outcome : Type :=
| Completed (body : bytes)
| Failed (written : bytes) (msg : string).

Definition EXAMPLE_DATE : datetime := mk_datetime 2024 4 2 16 0 0 0.

(** [DATA_DIR = Path("data")]; the directory is made when the module is
    loaded, so it exists whenever the fetcher runs. *)
Definition DATA_DIR : string := "data".

Section WithEnvironment.
(** Everything outside the program that decides how its calls end is one
    state [Env]: the S3 service and the network behind the client, and what
    the local file system answers to [open] (permissions, a directory that
    is gone, a full disk).  Both calls may depend on it and change it.
    [open_file e path] is [None] when [open(path, 'wb')] succeeds and
    [Some msg] for the [OSError] it raises otherwise. *)
Context {Env : Type}.
Variable open_file : Env → string → option string * Env.
Variable download_fileobj : Env → string → string → outcome * Env.

(** The world the fetcher acts on: the regular files below the working
    directory by path, the lines printed, the environment, and the log of
    the [(bucket, key)] download attempts made so far.  A path names its
    own file (there are no symbolic links), and the client writes only
    through the file object it is given. *)
Record World : Type := mk_world {
  files : gmap string bytes;
  stdout : list string;
  env : Env;
  attempts : list (string * string)
}.

Definition set_files (f : gmap string bytes → gmap string bytes)
    (w : World) : World :=
  mk_world (f (files w)) (stdout w) (env w) (attempts w).

(** Statements run in a world and end normally or by raising. *)
Definition M (A : Type) : Type := World → World * (exn + A).

#[local] Instance M_ret : MRet M := λ A a w, (w, inr a).
#[local] Instance M_bind : MBind M := λ A B f m w,
  match m w with
  | (w', inl e) => (w', inl e)
  | (w', inr a) => f a w'
  end.

Definition raise {A} (e : exn) : M A := λ w, (w, inl e).

Definition or_raise {A} (e : exn) (o : option A) : M A :=
  match o with Some a => mret a | None => raise e end.

(** [os.path.exists] *)
Definition path_exists (path : string) : M bool :=
  λ w, (w, inr (bool_decide (is_Some (files w !! path)))).

Definition print (line : string) : M unit :=
  λ w, (mk_world (files w) (stdout w ++ [line]) (env w) (attempts w),
        inr ()).

(** [open(path, 'wb')]: the file is created, or emptied when it exists;
    or the call raises [OSError] and no file is made. *)
Definition open_wb (path : string) : M unit :=
  λ w,
    let '(r, e) := open_file (env w) path in
    let w' := mk_world (files w) (stdout w) e (attempts w) in
    match r with
    | None => (set_files <[path := []]> w', inr ())
    | Some msg => (w', inl (OSError msg))
    end.

(** [s3_client.download_fileobj(bucket, key, f)] inside the [with] block
    of the file opened at [path]; the block closes the file on both
    exits, so what was written stays on disk. *)
Definition client_download (bucket key path : string) : M unit :=
  λ w,
    let '(r, e) := download_fileobj (env w) bucket key in
    let w' := mk_world (files w) (stdout w) e
                (attempts w ++ [(bucket, key)]) in
    match r with
    | Completed body => (set_files <[path := body]> w', inr ())
    | Failed written msg =>
        (set_files <[path := written]> w', inl (ClientError msg))
    end.

Fixpoint for_each {A} (xs : list A) (body : A → M unit) : M unit :=
  match xs with
  | [] => mret ()
  | x :: xs' => body x ;; for_each xs' body
  end.

(** [range(a, b)] *)
Definition range (a b : Z) : list Z := seqZ a (b - a).

(** The body of the loop of [download_files_for_date]. *)
Definition download_band (download_datetime : datetime) (band : Z)
    : M unit :=
  let object_name_dict := get_object_name_dict download_datetime band in
  object_name ← or_raise FormatError
                  (format OBJECT_NAME_PATTERN object_name_dict);
  let output_file_name := path_join DATA_DIR (basename object_name) in
  present ← path_exists output_file_name;
  if negb present then
    print ("Downloading " +:+ object_name);;
    open_wb output_file_name;;
    bucket ← or_raise (KeyError "bucket_name")
               (object_name_dict !! "bucket_name");
    client_download bucket object_name output_file_name
  else mret ().

Definition download_files_for_date (download_datetime : datetime)
    : M unit :=
  for_each (range 1 7) (download_band download_datetime).

(** The attempts a run adds to the log. *)
Definition new_attempts (run : M unit) (w : World) : list (string * string) :=
  drop (length (attempts w)) (attempts (run w).1).

End WithEnvironment.

Arguments World : clear implicits.
Arguments M : clear implicits.

(** What the loop body computes for a band before it touches the world:
    the destination [DATA_DIR / os.path.basename(object_name)] and the
    arguments [(bucket, key)] it would give to [download_fileobj]. *)
Definition output_file_name (download_datetime : datetime) (band : Z)
    : option string :=
  object_name ← format OBJECT_NAME_PATTERN
                  (get_object_name_dict download_datetime band);
  Some (path_join DATA_DIR (basename object_name)).

Definition download_args (download_datetime : datetime) (band : Z)
    : option (string * string) :=
  let object_name_dict := get_object_name_dict download_datetime band in
  object_name ← format OBJECT_NAME_PATTERN object_name_dict;
  bucket ← object_name_dict !! "bucket_name";
  Some (bucket, object_name).

End Fetcher.

(** ** Reference notions the properties are stated with *)
Module Spec.
Import Datetime Text KeyBuilder Fetcher.

(** The [w] low-order decimal digits of [n], most significant first: the
    zero-padded numeral of width [w]. *)
Definition digit_char (k : N) : ascii := ascii_of_N (48 + k).

Fixpoint digits_go (w : nat) (n : N) (acc : string) : string :=
  match w with
  | O => acc
  | S w' => digits_go w' (n / 10)%N (String (digit_char (n mod 10)%N) acc)
  end.

Definition digits (w : nat) (n : N) : string := digits_go w n "".

Definition pow10 (k : nat) : N := (10 ^ N.of_nat k)%N.

(** The template of the object key, as a function of its fields. *)
Definition key_template
    (year month day hour minute satellite_code band_code resolution : string)
    : string :=
  "AHI-L1b-FLDK/" +:+ year +:+ "/" +:+ month +:+ "/" +:+ day +:+ "/" +:+
  hour +:+ minute +:+ "/" +:+
  "HS_" +:+ satellite_code +:+ "_" +:+ year +:+ month +:+ day +:+ "_" +:+
  hour +:+ minute +:+ "_" +:+ band_code +:+ "_FLDK_" +:+ resolution +:+
  "_S0101.DAT.bz2".

(** The final path segment of that template. *)
Definition file_template
    (year month day hour minute satellite_code band_code resolution : string)
    : string :=
  "HS_" +:+ satellite_code +:+ "_" +:+ year +:+ month +:+ day +:+ "_" +:+
  hour +:+ minute +:+ "_" +:+ band_code +:+ "_FLDK_" +:+ resolution +:+
  "_S0101.DAT.bz2".

Fixpoint no_slash (s : string) : bool :=
  match s with
  | "" => true
  | String c rest => negb (Ascii.eqb c "/") && no_slash rest
  end.

(** [lacks c s]: the character [c] does not occur in [s]. *)
Fixpoint lacks (c : ascii) (s : string) : bool :=
  match s with
  | "" => true
  | String h rest => negb (Ascii.eqb h c) && lacks c rest
  end.

(** The values [get_object_name_dict] stores, by name. *)
Definition satellite_code (d : datetime) : string :=
  if lt d CUTOVER then "H08" else "H09".
Definition bucket_of (d : datetime) : string :=
  if lt d CUTOVER then HIMAWARI_8_BUCKET else HIMAWARI_9_BUCKET.
Definition band_code (b : Z) : string := "B" +:+ format_0d 2 b.
Definition resolution (b : Z) : string :=
  if (b <=? 4)%Z then "R10" else "R20".

(** The object key, the local file name and the destination path of a
    band, in closed form. *)
Definition key_of (d : datetime) (b : Z) : string :=
  key_template (strftime d "%Y") (strftime d "%m") (strftime d "%d")
    (strftime d "%H") (strftime d "%M")
    (satellite_code d) (band_code b) (resolution b).
Definition file_of (d : datetime) (b : Z) : string :=
  file_template (strftime d "%Y") (strftime d "%m") (strftime d "%d")
    (strftime d "%H") (strftime d "%M")
    (satellite_code d) (band_code b) (resolution b).
Definition dest_of (d : datetime) (b : Z) : string :=
  path_join DATA_DIR (file_of d b).

(** Same side of the cutover. *)
Definition same_epoch (d1 d2 : datetime) : Prop :=
  lt d1 CUTOVER = lt d2 CUTOVER.

(** The download attempt of a band: the bucket and the key asked for. *)
Definition attempt_of (d : datetime) (b : Z) : string * string :=
  (bucket_of d, key_of d b).

(** The bands of a list whose destination is missing from [fs]. *)
Definition pending (fs : gmap string bytes) (d : datetime) (bs : list Z)
    : list Z :=
  filter (λ b, fs !! dest_of d b = None) bs.

(** Two clients for examples: one whose calls all complete with an empty
    body, one whose calls all fail before writing; and an empty world. *)
Definition always_ok (c : unit) (bucket key : string) : outcome * unit :=
  (Completed [], c).
Definition always_failing (c : unit) (bucket key : string) : outcome * unit :=
  (Failed [] "NoSuchKey", c).
Definition empty_world : World unit := mk_world ∅ [] tt [].

(** Two file systems for examples: one where every [open] succeeds, one
    where every [open] is refused. *)
Definition always_opens (e : unit) (path : string) : option string * unit :=
  (None, e).

(** A client that fails on the key of band 3 of [EXAMPLE_DATE] after
    writing one byte, and completes on every other key; and the world after
    bands 1 and 2 have been fetched with it. *)
Definition band3_key : string :=
  "AHI-L1b-FLDK/2024/04/02/1600/HS_H09_20240402_1600_B03_FLDK_R10_S0101.DAT.bz2".
Definition band3_file : string :=
  "data/HS_H09_20240402_1600_B03_FLDK_R10_S0101.DAT.bz2".
Definition fails_on_band3 (e : unit) (bucket key : string) : outcome * unit :=
  if String.eqb key band3_key then (Failed [Byte.x2a] "NoSuchKey", e)
  else (Completed [], e).
Definition after_two_bands : World unit :=
  (for_each [1; 2]%Z (download_band always_opens fails_on_band3 EXAMPLE_DATE)
     empty_world).1.

(** A world where the file of band 4 of [EXAMPLE_DATE] is already there. *)
Definition band4_file : string :=
  "data/HS_H09_20240402_1600_B04_FLDK_R10_S0101.DAT.bz2".
Definition band4_world : World unit :=
  mk_world {[ band4_file := [Byte.x2a] ]} [] tt [].

(** The names of the replacement fields of [OBJECT_NAME_PATTERN]. *)
Definition pattern_fields : list string :=
  ["year"; "month"; "day"; "hour"; "minute"; "satellite_code"; "band";
   "resolution"].

(** The bands of [range(1, 7)] whose destination is missing from [fs], in
    the order of the loop. *)
Definition missing_bands (fs : gmap string bytes) (d : datetime) : list Z :=
  filter (λ b, output_file_name d b ≫= (fs !!.) = None) (range 1 7).


(** What a call of the client leaves in the file, and how it ends. *)
Definition written_by (r : outcome) : bytes :=
  match r with Completed body => body | Failed written _ => written end.
Definition ending_of (r : outcome) : exn + unit :=
  match r with Completed _ => inr () | Failed _ msg => inl (ClientError msg) end.

End Spec.

Import Datetime Text KeyBuilder Fetcher Spec.

(** * Properties *)

(** [lia] also decides goals with division and remainder by a numeral. *)
Ltac Zify.zify_post_hook ::= Z.to_euclidean_division_equations.

(** Validity of a literal datetime. *)
Ltac valid_date := unfold valid; cbn; lia.

(** ** Strings *)
Section Strings.

Lemma string_app_cons c (a b : string) : String c a +:+ b = String c (a +:+ b).
Proof. reflexivity. Qed.

Lemma string_app_nil_l (b : string) : "" +:+ b = b.
Proof. reflexivity. Qed.

Lemma string_length_app (a b : string) :
  String.length (a +:+ b) = String.length a + String.length b.
Proof.
  induction a as [|c a IH]; [done|]. rewrite string_app_cons. simpl. by rewrite IH.
Qed.

Lemma string_app_nil_r (a : string) : a +:+ "" = a.
Proof. induction a as [|c a IH]; [done|]. by rewrite string_app_cons, IH. Qed.

Lemma string_app_assoc (a b c : string) : (a +:+ b) +:+ c = a +:+ b +:+ c.
Proof. induction a as [|x a IH]; [done|]. by rewrite !string_app_cons, IH. Qed.

(** Two concatenations that agree split alike when their heads have the
    same length. *)
Lemma string_app_inj_length (a a' b b' : string) :
  String.length a = String.length a' →
  a +:+ b = a' +:+ b' → a = a' ∧ b = b'.
Proof.
  revert a'. induction a as [|c a IH]; intros [|c' a'] Hlen Heq;
    rewrite ?string_app_cons, ?string_app_nil_l in Heq; simplify_eq/=; [done|].
  destruct (IH a') as [-> ->]; auto.
Qed.

(** ... and when their tails have the same length. *)
Lemma string_app_inj_length_r (a a' b b' : string) :
  String.length b = String.length b' →
  a +:+ b = a' +:+ b' → a = a' ∧ b = b'.
Proof.
  intros Hlen Heq. apply string_app_inj_length; [|done].
  apply (f_equal String.length) in Heq. rewrite !string_length_app in Heq. lia.
Qed.

Lemma length_zeros n : String.length (zeros n) = n.
Proof. induction n; simpl; auto. Qed.

Lemma zeros_snoc n s : zeros n +:+ String "0" s = zeros (S n) +:+ s.
Proof.
  induction n as [|n IH]; [done|].
  change (zeros (S n)) with (String "0" (zeros n)) at 1.
  rewrite string_app_cons, IH. reflexivity.
Qed.

Lemma no_slash_app a b : no_slash (a +:+ b) = no_slash a && no_slash b.
Proof.
  induction a as [|c a IH]; [done|]. rewrite string_app_cons. simpl. rewrite IH.
  by destruct (Ascii.eqb c "/").
Qed.

Lemma no_slash_zeros n : no_slash (zeros n) = true.
Proof. induction n; simpl; auto. Qed.

Lemma basename_go_no_slash s cur : no_slash s = true → basename_go s cur = cur.
Proof.
  revert cur. induction s as [|c s IH]; intros cur; simpl; [done|].
  destruct (Ascii.eqb c "/"); simpl; [done|]. auto.
Qed.

(** The basename is what follows the last slash. *)
Lemma basename_app_slash a b :
  no_slash b = true → basename (a +:+ String "/" b) = b.
Proof.
  intros Hb. unfold basename.
  assert (∀ cur, basename_go (a +:+ String "/" b) cur = b) as H; [|apply H].
  induction a as [|c a IH]; intros cur.
  - rewrite string_app_nil_l. simpl. by apply basename_go_no_slash.
  - rewrite string_app_cons. simpl. destruct (Ascii.eqb c "/"); apply IH.
Qed.

Lemma lacks_app c a b : lacks c (a +:+ b) = lacks c a && lacks c b.
Proof.
  induction a as [|h a IH]; [done|]. rewrite string_app_cons. simpl.
  rewrite IH. by destruct (Ascii.eqb h c).
Qed.

(** Two texts that agree split alike at a separator that neither head
    contains. *)
Lemma split_at_char c a a' x x' :
  lacks c a = true → lacks c a' = true →
  a +:+ String c "" +:+ x = a' +:+ String c "" +:+ x' → a = a' ∧ x = x'.
Proof.
  revert a'. induction a as [|h a IH]; intros [|h' a'] Ha Ha' Heq;
    rewrite ?string_app_cons, ?string_app_nil_l in Heq; simpl in Ha, Ha'.
  - by injection Heq as ->.
  - injection Heq as <- _. by rewrite Ascii.eqb_refl in Ha'.
  - injection Heq as -> _. by rewrite Ascii.eqb_refl in Ha.
  - injection Heq as -> Heq.
    apply andb_prop in Ha as [_ Ha]. apply andb_prop in Ha' as [_ Ha'].
    by destruct (IH a' Ha Ha' Heq) as [-> ->].
Qed.

End Strings.

(** ** Decimal numerals *)
Section Numerals.

Lemma pow10_0 : pow10 0 = 1%N.
Proof. reflexivity. Qed.

Lemma pow10_S k : pow10 (S k) = (10 * pow10 k)%N.
Proof. unfold pow10. by rewrite Nat2N.inj_succ, N.pow_succ_r'. Qed.

Lemma pow10_pos k : (0 < pow10 k)%N.
Proof.
  induction k as [|k IH]; [by rewrite pow10_0|]. rewrite pow10_S. lia.
Qed.

Lemma pretty_N_char_digit k : (k < 10)%N → pretty_N_char k = digit_char k.
Proof.
  intros Hk.
  assert (k = 0 ∨ k = 1 ∨ k = 2 ∨ k = 3 ∨ k = 4 ∨ k = 5 ∨ k = 6 ∨ k = 7
          ∨ k = 8 ∨ k = 9)%N as Hcases by lia.
  repeat (destruct Hcases as [->|Hcases]; [reflexivity|]). by subst.
Qed.

Lemma digit_char_inj j k :
  (j < 10)%N → (k < 10)%N → digit_char j = digit_char k → j = k.
Proof.
  intros Hj Hk. rewrite <-!pretty_N_char_digit by done.
  by apply pretty_N_char_inj.
Qed.

Lemma pretty_N_char_no_slash k : Ascii.eqb (pretty_N_char k) "/" = false.
Proof. unfold pretty_N_char. by repeat case_match. Qed.

Lemma pretty_N_char_not_dash k : pretty_N_char k ≠ "-"%char.
Proof. unfold pretty_N_char. by repeat case_match. Qed.

(** [pretty_N_go] only ever prepends to its accumulator. *)
Lemma length_pretty_go_ge x s :
  String.length s ≤ String.length (pretty_N_go x s).
Proof.
  revert s. induction (N.lt_wf_0 x) as [x _ IH]; intros s.
  destruct (decide (x = 0%N)) as [->|Hx]; [by rewrite pretty_N_go_0|].
  rewrite pretty_N_go_step by lia.
  etrans; [|apply IH, N.div_lt; lia]. simpl. lia.
Qed.

Lemma length_pretty_go_upper k x s :
  (x < pow10 k)%N → String.length (pretty_N_go x s) ≤ k + String.length s.
Proof.
  revert x s. induction k as [|k IH]; intros x s Hx.
  - rewrite pow10_0 in Hx. assert (x = 0%N) as -> by lia.
    by rewrite pretty_N_go_0.
  - rewrite pow10_S in Hx.
    destruct (decide (x = 0%N)) as [->|Hx0].
    { rewrite pretty_N_go_0. lia. }
    rewrite pretty_N_go_step by lia.
    etrans; [apply IH; lia|]. simpl. lia.
Qed.

Lemma length_pretty_go_lower k x s :
  (pow10 k ≤ x)%N → k + 1 + String.length s ≤ String.length (pretty_N_go x s).
Proof.
  revert x s. induction k as [|k IH]; intros x s Hx.
  - rewrite pow10_0 in Hx. rewrite pretty_N_go_step by lia.
    etrans; [|apply length_pretty_go_ge]. simpl. lia.
  - rewrite pow10_S in Hx. pose proof (pow10_pos k).
    rewrite pretty_N_go_step by lia.
    etrans; [|apply IH; lia]. simpl. lia.
Qed.

Lemma no_slash_pretty_go x s : no_slash (pretty_N_go x s) = no_slash s.
Proof.
  revert s. induction (N.lt_wf_0 x) as [x _ IH]; intros s.
  destruct (decide (x = 0%N)) as [->|Hx]; [by rewrite pretty_N_go_0|].
  rewrite pretty_N_go_step by lia. rewrite IH by (apply N.div_lt; lia).
  simpl. by rewrite pretty_N_char_no_slash.
Qed.

Lemma pretty_N_unfold (x : N) :
  pretty x = if decide (x = 0%N) then "0" else pretty_N_go x "".
Proof. reflexivity. Qed.

Lemma no_slash_pretty (x : N) : no_slash (pretty x) = true.
Proof.
  rewrite pretty_N_unfold. case_decide; [done|]. by rewrite no_slash_pretty_go.
Qed.

Lemma length_pretty_pos (x : N) : 1 ≤ String.length (pretty x).
Proof.
  rewrite pretty_N_unfold. case_decide; [simpl; lia|].
  pose proof (length_pretty_go_lower 0 x "") as Hlen.
  rewrite pow10_0 in Hlen. simpl in Hlen. lia.
Qed.

Lemma length_pretty_upper k (x : N) :
  0 < k → (x < pow10 k)%N → String.length (pretty x) ≤ k.
Proof.
  intros Hk Hx. rewrite pretty_N_unfold. case_decide; [simpl; lia|].
  pose proof (length_pretty_go_upper k x "" Hx) as Hlen. simpl in Hlen. lia.
Qed.

Lemma length_pretty_lower k (x : N) :
  (pow10 k ≤ x)%N → k + 1 ≤ String.length (pretty x).
Proof.
  intros Hx. rewrite pretty_N_unfold. case_decide as H0.
  - subst x. pose proof (pow10_pos k). lia.
  - pose proof (length_pretty_go_lower k x "" Hx) as Hlen. simpl in Hlen. lia.
Qed.

(** A numeral never starts with a minus sign. *)
Lemma pretty_N_not_dash (x : N) s : pretty x ≠ String "-" s.
Proof.
  rewrite pretty_N_unfold. case_decide; [done|].
  by apply (pretty_N_go_ne_dash x "" s).
Qed.

(** *** The zero-padded numeral of fixed width *)

Lemma length_digits_go w n acc :
  String.length (digits_go w n acc) = w + String.length acc.
Proof.
  revert n acc. induction w as [|w IH]; intros n acc; simpl; [done|].
  rewrite IH. simpl. lia.
Qed.

Lemma length_digits w n : String.length (digits w n) = w.
Proof. unfold digits. rewrite length_digits_go. simpl. lia. Qed.

Lemma digits_go_inj w x y a b :
  (x < pow10 w)%N → (y < pow10 w)%N → String.length a = String.length b →
  digits_go w x a = digits_go w y b → x = y ∧ a = b.
Proof.
  revert x y a b. induction w as [|w IH]; intros x y a b Hx Hy Hlen Heq.
  - rewrite pow10_0 in *. split; [lia|done].
  - rewrite pow10_S in *. simpl in Heq.
    apply IH in Heq as [Hdiv [= Hc ->]]; [|lia|lia|simpl; lia].
    apply digit_char_inj in Hc; [|lia..]. split; [lia|done].
Qed.

Lemma digits_inj w x y :
  (x < pow10 w)%N → (y < pow10 w)%N → digits w x = digits w y → x = y.
Proof. intros Hx Hy Heq. by apply (digits_go_inj w x y "" ""). Qed.

Lemma digits_go_pretty w x acc :
  (x < pow10 w)%N →
  digits_go w x acc
  = zeros (w + String.length acc - String.length (pretty_N_go x acc))
      +:+ pretty_N_go x acc.
Proof.
  revert x acc. induction w as [|w IH]; intros x acc Hx.
  - rewrite pow10_0 in Hx. assert (x = 0%N) as -> by lia.
    rewrite pretty_N_go_0. simpl. by rewrite Nat.sub_diag.
  - rewrite pow10_S in Hx. simpl.
    rewrite <-pretty_N_char_digit by lia.
    rewrite IH by lia.
    destruct (decide (x = 0%N)) as [->|Hx0].
    + rewrite !pretty_N_go_0. simpl.
      replace (w + S (String.length acc) - S (String.length acc)) with w by lia.
      replace (S (w + String.length acc) - String.length acc) with (S w) by lia.
      apply zeros_snoc.
    + rewrite <-pretty_N_go_step by lia. do 2 f_equal. simpl. lia.
Qed.

(** Padding the numeral of a number below [10 ^ w] gives its [w] digits. *)
Lemma zfill_pretty w (x : N) :
  0 < w → (x < pow10 w)%N → zfill w (pretty x) = digits w x.
Proof.
  intros Hw Hx. unfold zfill, digits. rewrite digits_go_pretty by done.
  rewrite pretty_N_unfold. case_decide as H0; [|simpl; do 2 f_equal; lia].
  subst x. rewrite pretty_N_go_0. simpl. rewrite Nat.add_0_r, Nat.sub_0_r.
  destruct w as [|w]; [lia|]. simpl. rewrite Nat.sub_0_r.
  rewrite zeros_snoc, !string_app_nil_r. reflexivity.
Qed.

Lemma length_zfill w s : String.length (zfill w s) = Nat.max w (String.length s).
Proof. unfold zfill. rewrite string_length_app, length_zeros. lia. Qed.

Lemma no_slash_zfill w s : no_slash (zfill w s) = no_slash s.
Proof. unfold zfill. by rewrite no_slash_app, no_slash_zeros. Qed.

(** *** Characters that are not digits *)

Lemma pretty_N_char_not_underscore k : Ascii.eqb (pretty_N_char k) "_" = false.
Proof. unfold pretty_N_char. by repeat case_match. Qed.

Lemma lacks_pretty_go c x s :
  (∀ k, Ascii.eqb (pretty_N_char k) c = false) →
  lacks c (pretty_N_go x s) = lacks c s.
Proof.
  intros Hc. revert s. induction (N.lt_wf_0 x) as [x _ IH]; intros s.
  destruct (decide (x = 0%N)) as [->|Hx]; [by rewrite pretty_N_go_0|].
  rewrite pretty_N_go_step by lia. rewrite IH by (apply N.div_lt; lia).
  cbn [lacks]. by rewrite Hc.
Qed.

Lemma lacks_pretty c (x : N) :
  (∀ k, Ascii.eqb (pretty_N_char k) c = false) → lacks c (pretty x) = true.
Proof.
  intros Hc. rewrite pretty_N_unfold. case_decide.
  - pose proof (Hc 0%N) as H0. change (pretty_N_char 0) with "0"%char in H0.
    cbn [lacks]. by rewrite H0.
  - by rewrite lacks_pretty_go.
Qed.

Lemma lacks_digits_go c w n acc :
  (∀ k, Ascii.eqb (pretty_N_char k) c = false) →
  lacks c (digits_go w n acc) = lacks c acc.
Proof.
  intros Hc. revert n acc. induction w as [|w IH]; intros n acc; [done|].
  cbn [digits_go]. rewrite IH. cbn [lacks].
  rewrite <-pretty_N_char_digit by lia. by rewrite Hc.
Qed.

Lemma lacks_digits c w n :
  (∀ k, Ascii.eqb (pretty_N_char k) c = false) → lacks c (digits w n) = true.
Proof. intros Hc. unfold digits. by rewrite lacks_digits_go. Qed.

(** From 1000 on the plain numeral of a year has its four digits. *)
Lemma pretty_year_4 (y : N) :
  (1000 ≤ y < 10000)%N → pretty y = digits 4 y.
Proof.
  intros Hy.
  rewrite <-(zfill_pretty 4 y); [|lia|change (pow10 4) with 10000%N; lia].
  unfold zfill.
  pose proof (length_pretty_lower 3 y) as Hlen.
  change (pow10 3) with 1000%N in Hlen.
  by replace (4 - String.length (pretty y)) with 0 by lia.
Qed.

Lemma length_pretty_year_short (y : N) :
  (y < 1000)%N → String.length (pretty y) < 4.
Proof.
  intros Hy. pose proof (length_pretty_upper 3 y) as Hlen.
  change (pow10 3) with 1000%N in Hlen. lia.
Qed.

End Numerals.

(** ** Integer formatting and [strftime] *)
Section Formatting.

Lemma format_0d_nonneg w b :
  (0 ≤ b)%Z → format_0d w b = zfill w (pretty (Z.to_N b)).
Proof.
  intros Hb. unfold format_0d, zfill.
  destruct (Z.ltb_spec b 0) as [?|_]; [lia|].
  rewrite string_app_nil_l. simpl String.length. rewrite Nat.sub_0_r.
  by replace (Z.abs_N b) with (Z.to_N b) by lia.
Qed.

Lemma format_0d_neg w b :
  (b < 0)%Z → format_0d w b = "-" +:+ zfill (w - 1) (pretty (Z.abs_N b)).
Proof.
  intros Hb. unfold format_0d, zfill.
  destruct (Z.ltb_spec b 0) as [_|?]; [|lia]. reflexivity.
Qed.

Lemma no_slash_format_0d w b : no_slash (format_0d w b) = true.
Proof.
  destruct (Z.lt_ge_cases b 0).
  - rewrite format_0d_neg by done.
    rewrite no_slash_app, no_slash_zfill, no_slash_pretty. reflexivity.
  - rewrite format_0d_nonneg by done.
    by rewrite no_slash_zfill, no_slash_pretty.
Qed.

Lemma pow10_2 : pow10 2 = 100%N.
Proof. reflexivity. Qed.

Lemma pow10_4 : pow10 4 = 10000%N.
Proof. reflexivity. Qed.

Lemma pow10_1 : pow10 1 = 10%N.
Proof. reflexivity. Qed.

(** Bands from 0 to 99 get exactly their two digits. *)
Lemma format_0d_2_digits b :
  (0 ≤ b ≤ 99)%Z → format_0d 2 b = digits 2 (Z.to_N b).
Proof.
  intros Hb. rewrite format_0d_nonneg by lia.
  apply zfill_pretty; [lia|]. rewrite pow10_2. lia.
Qed.

(** The length of [f'{b:02d}'], by the size of [b]. *)
Lemma length_format_0d_2 b :
  String.length (format_0d 2 b) = 2 ↔ (-9 ≤ b ≤ 99)%Z.
Proof.
  destruct (Z.lt_ge_cases b 0) as [Hneg|Hpos].
  - rewrite format_0d_neg by done. rewrite string_length_app, length_zfill.
    simpl String.length.
    pose proof (length_pretty_pos (Z.abs_N b)).
    destruct (decide (b < -9)%Z) as [Hlow|Hhigh].
    + pose proof (length_pretty_lower 1 (Z.abs_N b)) as Hl.
      rewrite pow10_1 in Hl. lia.
    + pose proof (length_pretty_upper 1 (Z.abs_N b)) as Hu.
      rewrite pow10_1 in Hu. lia.
  - rewrite format_0d_nonneg by done. rewrite length_zfill.
    destruct (decide (b ≤ 99)%Z) as [Hlow|Hhigh].
    + pose proof (length_pretty_upper 2 (Z.to_N b)) as Hu.
      rewrite pow10_2 in Hu. lia.
    + pose proof (length_pretty_lower 2 (Z.to_N b)) as Hl.
      rewrite pow10_2 in Hl. lia.
Qed.

Lemma zfill_pretty_2 (x : N) : (x < 100)%N → zfill 2 (pretty x) = digits 2 x.
Proof. intros Hx. apply zfill_pretty; [lia|by rewrite pow10_2]. Qed.

Lemma zfill_pretty_4 (x : N) :
  (x < 10000)%N → zfill 4 (pretty x) = digits 4 x.
Proof. intros Hx. apply zfill_pretty; [lia|by rewrite pow10_4]. Qed.

Lemma zfill_ge w s : w ≤ String.length s → zfill w s = s.
Proof.
  intros Hw. unfold zfill. by replace (w - String.length s) with 0 by lia.
Qed.

(** Padded numerals of naturals are pairwise distinct, whatever their
    size. *)
Lemma zfill_2_pretty_inj (x y : N) :
  zfill 2 (pretty x) = zfill 2 (pretty y) → x = y.
Proof.
  intros Heq.
  pose proof (f_equal String.length Heq) as Hlen. rewrite !length_zfill in Hlen.
  destruct (decide (x < 100)%N) as [Hx|Hx], (decide (y < 100)%N) as [Hy|Hy].
  - rewrite !zfill_pretty_2 in Heq by done.
    apply digits_inj in Heq; rewrite ?pow10_2; done.
  - pose proof (length_pretty_upper 2 x) as Hu.
    pose proof (length_pretty_lower 2 y) as Hl.
    rewrite pow10_2 in *. lia.
  - pose proof (length_pretty_upper 2 y) as Hu.
    pose proof (length_pretty_lower 2 x) as Hl.
    rewrite pow10_2 in *. lia.
  - pose proof (length_pretty_lower 2 y) as Hly.
    pose proof (length_pretty_lower 2 x) as Hlx.
    rewrite pow10_2 in *.
    rewrite !zfill_ge in Heq by lia. by apply (inj pretty).
Qed.

Lemma zfill_not_dash w (x : N) s : zfill w (pretty x) ≠ String "-" s.
Proof.
  unfold zfill. destruct (w - String.length (pretty x)) as [|n].
  - rewrite string_app_nil_l. apply pretty_N_not_dash.
  - simpl zeros. rewrite string_app_cons. congruence.
Qed.

(** [f'{b:02d}'] tells any two integers apart. *)
Lemma format_0d_2_inj b1 b2 : format_0d 2 b1 = format_0d 2 b2 → b1 = b2.
Proof.
  destruct (Z.lt_ge_cases b1 0) as [H1|H1], (Z.lt_ge_cases b2 0) as [H2|H2];
    rewrite ?(format_0d_neg 2 b1), ?(format_0d_neg 2 b2),
      ?(format_0d_nonneg 2 b1), ?(format_0d_nonneg 2 b2) by done;
    intros Heq.
  - apply (inj (String.app "-")) in Heq.
    rewrite !zfill_ge in Heq by apply length_pretty_pos.
    apply (inj pretty) in Heq. lia.
  - symmetry in Heq. by apply zfill_not_dash in Heq.
  - by apply zfill_not_dash in Heq.
  - apply zfill_2_pretty_inj in Heq. lia.
Qed.

Lemma strftime_Y d : strftime d "%Y" = pretty (year d).
Proof. cbn. apply string_app_nil_r. Qed.
Lemma strftime_m d : strftime d "%m" = zfill 2 (pretty (month d)).
Proof. cbn. apply string_app_nil_r. Qed.
Lemma strftime_d d : strftime d "%d" = zfill 2 (pretty (day d)).
Proof. cbn. apply string_app_nil_r. Qed.
Lemma strftime_H d : strftime d "%H" = zfill 2 (pretty (hour d)).
Proof. cbn. apply string_app_nil_r. Qed.
Lemma strftime_M d : strftime d "%M" = zfill 2 (pretty (minute d)).
Proof. cbn. apply string_app_nil_r. Qed.

End Formatting.

(** ** The fields and the key of the key builder *)
Section KeyFacts.
Implicit Types (d : datetime) (b : Z).

Lemma dict_year d b :
  get_object_name_dict d b !! "year" = Some (strftime d "%Y").
Proof. unfold get_object_name_dict, dict_literal. by simplify_map_eq. Qed.
Lemma dict_month d b :
  get_object_name_dict d b !! "month" = Some (strftime d "%m").
Proof. unfold get_object_name_dict, dict_literal. by simplify_map_eq. Qed.
Lemma dict_day d b :
  get_object_name_dict d b !! "day" = Some (strftime d "%d").
Proof. unfold get_object_name_dict, dict_literal. by simplify_map_eq. Qed.
Lemma dict_hour d b :
  get_object_name_dict d b !! "hour" = Some (strftime d "%H").
Proof. unfold get_object_name_dict, dict_literal. by simplify_map_eq. Qed.
Lemma dict_minute d b :
  get_object_name_dict d b !! "minute" = Some (strftime d "%M").
Proof. unfold get_object_name_dict, dict_literal. by simplify_map_eq. Qed.
Lemma dict_satellite_code d b :
  get_object_name_dict d b !! "satellite_code" = Some (satellite_code d).
Proof. unfold get_object_name_dict, dict_literal. by simplify_map_eq. Qed.
Lemma dict_band d b :
  get_object_name_dict d b !! "band" = Some (band_code b).
Proof. unfold get_object_name_dict, dict_literal. by simplify_map_eq. Qed.
Lemma dict_resolution d b :
  get_object_name_dict d b !! "resolution" = Some (resolution b).
Proof. unfold get_object_name_dict, dict_literal. by simplify_map_eq. Qed.
Lemma dict_bucket_name d b :
  get_object_name_dict d b !! "bucket_name" = Some (bucket_of d).
Proof. unfold get_object_name_dict, dict_literal. by simplify_map_eq. Qed.

(** Formatting the pattern with any keywords that hold the eight fields. *)
Lemma format_pattern (kw : gmap string string) y m dd h mi sc bc rs :
  kw !! "year" = Some y → kw !! "month" = Some m → kw !! "day" = Some dd →
  kw !! "hour" = Some h → kw !! "minute" = Some mi →
  kw !! "satellite_code" = Some sc → kw !! "band" = Some bc →
  kw !! "resolution" = Some rs →
  format OBJECT_NAME_PATTERN kw = Some (key_template y m dd h mi sc bc rs).
Proof.
  intros Hy Hm Hd Hh Hmi Hsc Hbc Hrs. unfold format.
  let p := eval vm_compute in OBJECT_NAME_PATTERN in
  change OBJECT_NAME_PATTERN with p.
  cbn -[String.app]. rewrite Hy, Hm, Hd, Hh, Hmi, Hsc, Hbc, Hrs.
  reflexivity.
Qed.

(** The key always exists, and is the template filled with the fields. *)
Lemma format_dict_eq d b :
  format OBJECT_NAME_PATTERN (get_object_name_dict d b) = Some (key_of d b).
Proof.
  unfold key_of.
  apply format_pattern;
    auto using dict_year, dict_month, dict_day, dict_hour, dict_minute,
      dict_satellite_code, dict_band, dict_resolution.
Qed.

Lemma object_name_eq d b : object_name d b = Some (key_of d b).
Proof. unfold object_name. apply format_dict_eq. Qed.

Lemma no_slash_strftime d :
  no_slash (strftime d "%Y") = true ∧ no_slash (strftime d "%m") = true ∧
  no_slash (strftime d "%d") = true ∧ no_slash (strftime d "%H") = true ∧
  no_slash (strftime d "%M") = true.
Proof.
  rewrite strftime_Y, strftime_m, strftime_d, strftime_H, strftime_M.
  by rewrite !no_slash_zfill, !no_slash_pretty.
Qed.

Lemma no_slash_file_of d b : no_slash (file_of d b) = true.
Proof.
  destruct (no_slash_strftime d) as (HY & Hm & Hd & HH & HM).
  unfold file_of, file_template, band_code.
  rewrite !no_slash_app, HY, Hm, Hd, HH, HM, no_slash_format_0d.
  unfold satellite_code, resolution.
  by destruct (lt d CUTOVER), (b <=? 4)%Z.
Qed.

(** The key is a directory part, a slash, and the file name. *)
Lemma key_of_split d b :
  key_of d b =
  ("AHI-L1b-FLDK/" +:+ strftime d "%Y" +:+ "/" +:+ strftime d "%m" +:+ "/" +:+
   strftime d "%d" +:+ "/" +:+ strftime d "%H" +:+ strftime d "%M")
  +:+ String "/" (file_of d b).
Proof.
  unfold key_of, key_template, file_of, file_template.
  rewrite !string_app_assoc. reflexivity.
Qed.

Lemma basename_key_of d b : basename (key_of d b) = file_of d b.
Proof.
  rewrite key_of_split. apply basename_app_slash, no_slash_file_of.
Qed.

(** The file name up to the band number, and what follows it. *)
Lemma file_of_split d b :
  file_of d b =
  ("HS_" +:+ satellite_code d +:+ "_" +:+ strftime d "%Y" +:+
   strftime d "%m" +:+ strftime d "%d" +:+ "_" +:+ strftime d "%H" +:+
   strftime d "%M" +:+ "_B")
  +:+ format_0d 2 b +:+ ("_FLDK_" +:+ resolution b +:+ "_S0101.DAT.bz2").
Proof.
  unfold file_of, file_template, band_code. rewrite !string_app_assoc. reflexivity.
Qed.

Lemma length_tail b :
  String.length ("_FLDK_" +:+ resolution b +:+ "_S0101.DAT.bz2") = 23.
Proof. unfold resolution. by destruct (b <=? 4)%Z. Qed.

(** For one timestamp, distinct bands have distinct file names, hence
    distinct destinations and keys. *)
Lemma file_of_inj d b1 b2 : file_of d b1 = file_of d b2 → b1 = b2.
Proof.
  rewrite !file_of_split. intros Heq.
  apply (inj (String.app _)) in Heq.
  apply string_app_inj_length_r in Heq as [Heq _]; [|by rewrite !length_tail].
  by apply format_0d_2_inj.
Qed.

Lemma dest_of_inj d b1 b2 : dest_of d b1 = dest_of d b2 → b1 = b2.
Proof.
  unfold dest_of, path_join. intros Heq.
  do 2 apply (inj (String.app _)) in Heq. by apply file_of_inj in Heq.
Qed.

End KeyFacts.

(** ** The cutover instant *)
Section Cutover.
Implicit Types (d : datetime).

(** [d < datetime(2022, 10, 28)] is decided by the date alone. *)
Lemma lt_cutover_date d :
  lt d CUTOVER = true ↔
  (year d < 2022 ∨ year d = 2022 ∧ (month d < 10 ∨ month d = 10 ∧ day d < 28))%N.
Proof.
  unfold lt, CUTOVER, of_date, to_tuple. simpl.
  repeat (match goal with
          | |- context [N.ltb ?a ?b] => destruct (N.ltb_spec a b)
          end; try (split; [intros; lia | intros [?|[? [?|[? ?]]]]; lia]));
    try (split; [done | intros; lia]).
Qed.








End Cutover.

(** ** The key builder: fields *)
Section KeyBuilderProperties.
Implicit Types (d : datetime) (b : Z).

(** On a valid datetime the year is its plain numeral and the four other
    fields are the zero-padded numerals of width two. *)
Lemma strftime_valid d :
  valid d →
  strftime d "%Y" = pretty (year d) ∧ strftime d "%m" = digits 2 (month d) ∧
  strftime d "%d" = digits 2 (day d) ∧ strftime d "%H" = digits 2 (hour d) ∧
  strftime d "%M" = digits 2 (minute d).
Proof.
  intros (Hy & Hm & Hd & Hh & Hmi & _).
  assert (days_in_month (year d) (month d) ≤ 31)%N as Hdim.
  { unfold days_in_month. repeat case_match; lia. }
  rewrite strftime_Y, strftime_m, strftime_d, strftime_H, strftime_M.
  rewrite !zfill_pretty_2 by lia. done.
Qed.

Lemma lt_cutover_minute d1 d2 :
  minute_of d1 = minute_of d2 → lt d1 CUTOVER = lt d2 CUTOVER.
Proof.
  unfold minute_of. intros [= Hy Hm Hd _ _].
  apply Bool.eq_true_iff_eq. rewrite !lt_cutover_date, Hy, Hm, Hd. done.
Qed.



(** C3. For every integer band, the resolution code is "R10" when the band
    is at most 4 and "R20" when it is at least 5. *)
Theorem C3_resolution_by_band d b :
  ((b ≤ 4)%Z → get_object_name_dict d b !! "resolution" = Some "R10") ∧
  ((5 ≤ b)%Z → get_object_name_dict d b !! "resolution" = Some "R20").
Proof.
  rewrite dict_resolution. unfold resolution.
  destruct (Z.leb_spec b 4); split; intros; (done || lia).
Qed.

Lemma C3_resolution_by_band_witness :
  ((4 ≤ 4)%Z ∧
   get_object_name_dict EXAMPLE_DATE 4 !! "resolution" = Some "R10") ∧
  ((5 ≤ 5)%Z ∧
   get_object_name_dict EXAMPLE_DATE 5 !! "resolution" = Some "R20").
Proof.
  split; (split; [lia|]).
  - apply (proj1 (C3_resolution_by_band EXAMPLE_DATE 4)). lia.
  - apply (proj2 (C3_resolution_by_band EXAMPLE_DATE 5)). lia.
Defined.

(** C9. The satellite code is "H08" exactly when the bucket is
    "noaa-himawari8", and "H09" exactly when it is "noaa-himawari9". *)
Theorem C9_epoch_consistency d b :
  (get_object_name_dict d b !! "satellite_code" = Some "H08" ↔
   get_object_name_dict d b !! "bucket_name" = Some "noaa-himawari8") ∧
  (get_object_name_dict d b !! "satellite_code" = Some "H09" ↔
   get_object_name_dict d b !! "bucket_name" = Some "noaa-himawari9").
Proof.
  rewrite dict_satellite_code, dict_bucket_name.
  unfold satellite_code, bucket_of. by destruct (lt d CUTOVER).
Qed.

(** C10. Two datetimes with the same year, month, day, hour and minute get
    equal dictionaries for every band; in particular they fall on the same
    side of the cutover, whatever their seconds and microseconds. *)
Theorem C10_minute_determines_fields d1 d2 b :
  minute_of d1 = minute_of d2 →
  get_object_name_dict d1 b = get_object_name_dict d2 b ∧
  lt d1 CUTOVER = lt d2 CUTOVER.
Proof.
  intros Hmin. pose proof (lt_cutover_minute d1 d2 Hmin) as Hlt.
  split; [|done]. unfold get_object_name_dict. rewrite Hlt.
  rewrite !strftime_Y, !strftime_m, !strftime_d, !strftime_H, !strftime_M.
  unfold minute_of in Hmin. injection Hmin as -> -> -> -> ->. done.
Qed.

Lemma C10_minute_determines_fields_witness :
  minute_of (mk_datetime 2022 10 28 0 0 0 0)
  = minute_of (mk_datetime 2022 10 28 0 0 59 999999) ∧
  get_object_name_dict (mk_datetime 2022 10 28 0 0 0 0) 6
  = get_object_name_dict (mk_datetime 2022 10 28 0 0 59 999999) 6 ∧
  lt (mk_datetime 2022 10 28 0 0 0 0) CUTOVER
  = lt (mk_datetime 2022 10 28 0 0 59 999999) CUTOVER.
Proof.
  split; [reflexivity|].
  apply (C10_minute_determines_fields
           (mk_datetime 2022 10 28 0 0 0 0)
           (mk_datetime 2022 10 28 0 0 59 999999) 6).
  reflexivity.
Defined.

(** C8 as stated fails: band 100 gets a band code of four characters. *)
Lemma C8_band_code_counterexample :
  get_object_name_dict EXAMPLE_DATE 100 !! "band" = Some "B100" ∧
  String.length "B100" ≠ 3.
Proof. split; [by vm_compute | by simpl]. Qed.

(** C8, amended.  The band code is "B" followed by the two-digit
    zero-padded band number for every band from 0 to 99, and it has
    exactly three characters exactly for the bands from -9 to 99. *)
Theorem C8_band_code d b :
  ∃ s, get_object_name_dict d b !! "band" = Some s ∧
       ((0 ≤ b ≤ 99)%Z → s = String "B" (digits 2 (Z.to_N b))) ∧
       (String.length s = 3 ↔ (-9 ≤ b ≤ 99)%Z).
Proof.
  exists (band_code b). split; [apply dict_band|]. unfold band_code. split.
  - intros Hb. by rewrite format_0d_2_digits.
  - rewrite string_app_cons, string_app_nil_l. simpl String.length.
    rewrite <-length_format_0d_2. lia.
Qed.

Lemma C8_band_code_witness :
  (0 ≤ 4 ≤ 99)%Z ∧
  ∃ s, get_object_name_dict EXAMPLE_DATE 4 !! "band" = Some s ∧
       s = "B04" ∧ String.length s = 3.
Proof.
  split; [lia|].
  destruct (C8_band_code EXAMPLE_DATE 4) as (s & Hs & Hdigits & Hlen).
  exists s. split; [exact Hs|]. split; [apply Hdigits; lia|apply Hlen; lia].
Defined.

End KeyBuilderProperties.

(** ** The key builder: the object key *)
Section ObjectKey.
Implicit Types (d : datetime) (b : Z).

Lemma length_satellite_code d : String.length (satellite_code d) = 3.
Proof. unfold satellite_code. by destruct (lt d CUTOVER). Qed.

(** Strip equal heads, or heads of equal length, off an equation between
    two concatenations. *)
Ltac peel H :=
  first
    [ apply (inj (String.app _)) in H
    | let E := fresh "E" in
      apply string_app_inj_length in H as [E H];
      [|by rewrite ?length_digits, ?length_satellite_code] ].

(** The bounds of the two-digit fields of a valid datetime. *)
Lemma valid_two_digits d :
  valid d →
  (month d < pow10 2 ∧ day d < pow10 2 ∧ hour d < pow10 2 ∧
   minute d < pow10 2)%N.
Proof.
  intros (_ & Hmo & Hday & Hh & Hmi & _).
  assert (days_in_month (year d) (month d) ≤ 31)%N
    by (unfold days_in_month; repeat case_match; lia).
  rewrite pow10_2. lia.
Qed.

(** Turn the equations between two-digit fields into equations between
    the fields. *)
Ltac fields_of_digits Hv1 Hv2 :=
  destruct (valid_two_digits _ Hv1) as (? & ? & ? & ?);
  destruct (valid_two_digits _ Hv2) as (? & ? & ? & ?);
  repeat match goal with
         | E : digits 2 _ = digits 2 _ |- _ =>
             apply digits_inj in E; [|assumption..]
         end.

(** On valid datetimes the key determines the minute and the band.  The
    year, of no fixed width, is delimited by the slash that follows it. *)
Lemma key_of_inj d1 d2 b1 b2 :
  valid d1 → valid d2 → key_of d1 b1 = key_of d2 b2 →
  minute_of d1 = minute_of d2 ∧ b1 = b2.
Proof.
  intros Hv1 Hv2 Heq.
  destruct (strftime_valid d1 Hv1) as (HY1 & Hm1 & Hd1 & HH1 & HM1).
  destruct (strftime_valid d2 Hv2) as (HY2 & Hm2 & Hd2 & HH2 & HM2).
  unfold key_of, key_template, band_code in Heq.
  rewrite HY1, Hm1, Hd1, HH1, HM1, HY2, Hm2, Hd2, HH2, HM2 in Heq.
  rewrite !string_app_assoc in Heq.
  peel Heq.
  apply (split_at_char "/") in Heq as [EY Heq];
    [|by apply lacks_pretty, pretty_N_char_no_slash..].
  apply (inj pretty) in EY. rewrite EY in Heq.
  repeat peel Heq.
  apply string_app_inj_length_r in Heq as [Hb _]; [|by rewrite !length_tail].
  apply format_0d_2_inj in Hb.
  fields_of_digits Hv1 Hv2.
  unfold minute_of. split; [congruence|done].
Qed.

(** So does the file name alone: dropping the directory of the key loses
    nothing.  There the year runs into the month and the day; the three
    together are delimited by the underscore that follows them, and the
    month and the day are their last four characters. *)
Lemma file_of_inj_valid d1 d2 b1 b2 :
  valid d1 → valid d2 → file_of d1 b1 = file_of d2 b2 →
  minute_of d1 = minute_of d2 ∧ b1 = b2.
Proof.
  intros Hv1 Hv2 Heq.
  destruct (strftime_valid d1 Hv1) as (HY1 & Hm1 & Hd1 & HH1 & HM1).
  destruct (strftime_valid d2 Hv2) as (HY2 & Hm2 & Hd2 & HH2 & HM2).
  unfold file_of, file_template, band_code in Heq.
  rewrite HY1, Hm1, Hd1, HH1, HM1, HY2, Hm2, Hd2, HH2, HM2 in Heq.
  rewrite !string_app_assoc in Heq.
  repeat peel Heq.
  match type of Heq with
  | ?y1 +:+ ?m1 +:+ ?dd1 +:+ "_" +:+ ?r1 = ?y2 +:+ ?m2 +:+ ?dd2 +:+ "_" +:+ ?r2 =>
      assert ((y1 +:+ m1 +:+ dd1) +:+ "_" +:+ r1
              = (y2 +:+ m2 +:+ dd2) +:+ "_" +:+ r2) as Hblock
        by (rewrite !string_app_assoc; exact Heq)
  end.
  clear Heq.
  apply (split_at_char "_") in Hblock as [Hymd Heq];
    [|by rewrite !lacks_app, !lacks_digits, lacks_pretty
         by apply pretty_N_char_not_underscore..].
  apply string_app_inj_length_r in Hymd as [EY Hmd];
    [|by rewrite !string_length_app, !length_digits].
  apply (inj pretty) in EY.
  repeat peel Hmd. repeat peel Heq.
  apply string_app_inj_length_r in Heq as [Hb _]; [|by rewrite !length_tail].
  apply format_0d_2_inj in Hb.
  fields_of_digits Hv1 Hv2.
  unfold minute_of. split; [congruence|done].
Qed.

(** The key of a valid datetime, with the date and time fields as
    numerals. *)
Lemma object_name_valid d b :
  valid d →
  object_name d b
  = Some (key_template (pretty (year d)) (digits 2 (month d))
            (digits 2 (day d)) (digits 2 (hour d)) (digits 2 (minute d))
            (satellite_code d) (band_code b) (resolution b)).
Proof.
  intros Hv. rewrite object_name_eq. unfold key_of.
  destruct (strftime_valid d Hv) as (-> & -> & -> & -> & ->). done.
Qed.

(** C2 as stated fails: the year 999 is written with three characters, so
    the key is not the template filled with a four-digit year. *)
Lemma C2_object_key_template_counterexample :
  valid (mk_datetime 999 12 31 0 0 0 0) ∧
  object_name (mk_datetime 999 12 31 0 0 0 0) 1
  = Some "AHI-L1b-FLDK/999/12/31/0000/HS_H08_9991231_0000_B01_FLDK_R10_S0101.DAT.bz2" ∧
  object_name (mk_datetime 999 12 31 0 0 0 0) 1
  ≠ Some (key_template (digits 4 999) (digits 2 12) (digits 2 31)
            (digits 2 0) (digits 2 0) "H08" "B01" "R10").
Proof.
  split; [valid_date|]. split; [by vm_compute|].
  vm_compute. discriminate.
Qed.

(** C2, amended.  For a valid timestamp whose year is at least 1000, the
    object key is the fixed template filled with the year (four digits),
    the zero-padded month, day, hour and minute (two digits each) and the
    satellite code, band code and resolution code of the dictionary.  For
    a year below 1000 the year is written as it is, without leading zeros,
    in fewer than four characters; the other fields are the same.
    2024-04-02T16:00:00 with band 4 gives the key
    AHI-L1b-FLDK/2024/04/02/1600/HS_H09_20240402_1600_B04_FLDK_R10_S0101.DAT.bz2
    in bucket noaa-himawari9; 2022-10-27T23:59:00 with band 6 gives
    satellite code "H08", bucket noaa-himawari8 and resolution "R20". *)
Theorem C2_object_key_template :
  (∀ d b sc bc rs,
     valid d → (1000 ≤ year d)%N →
     get_object_name_dict d b !! "satellite_code" = Some sc →
     get_object_name_dict d b !! "band" = Some bc →
     get_object_name_dict d b !! "resolution" = Some rs →
     object_name d b
     = Some (key_template (digits 4 (year d)) (digits 2 (month d))
               (digits 2 (day d)) (digits 2 (hour d)) (digits 2 (minute d))
               sc bc rs)) ∧
  (∀ d b sc bc rs,
     valid d → (year d < 1000)%N →
     get_object_name_dict d b !! "satellite_code" = Some sc →
     get_object_name_dict d b !! "band" = Some bc →
     get_object_name_dict d b !! "resolution" = Some rs →
     object_name d b
     = Some (key_template (pretty (year d)) (digits 2 (month d))
               (digits 2 (day d)) (digits 2 (hour d)) (digits 2 (minute d))
               sc bc rs) ∧
     String.length (pretty (year d)) < 4) ∧
  (object_name (mk_datetime 2024 4 2 16 0 0 0) 4
   = Some "AHI-L1b-FLDK/2024/04/02/1600/HS_H09_20240402_1600_B04_FLDK_R10_S0101.DAT.bz2" ∧
   get_object_name_dict (mk_datetime 2024 4 2 16 0 0 0) 4 !! "bucket_name"
   = Some "noaa-himawari9") ∧
  (get_object_name_dict (mk_datetime 2022 10 27 23 59 0 0) 6
     !! "satellite_code" = Some "H08" ∧
   get_object_name_dict (mk_datetime 2022 10 27 23 59 0 0) 6
     !! "bucket_name" = Some "noaa-himawari8" ∧
   get_object_name_dict (mk_datetime 2022 10 27 23 59 0 0) 6
     !! "resolution" = Some "R20").
Proof.
  split; [|split; [|by vm_compute]].
  - intros d b sc bc rs Hv Hy Hsc Hbc Hrs.
    rewrite dict_satellite_code in Hsc. rewrite dict_band in Hbc.
    rewrite dict_resolution in Hrs. simplify_eq.
    rewrite <-pretty_year_4 by (destruct Hv as ([_ ?] & _); lia).
    by apply object_name_valid.
  - intros d b sc bc rs Hv Hy Hsc Hbc Hrs.
    rewrite dict_satellite_code in Hsc. rewrite dict_band in Hbc.
    rewrite dict_resolution in Hrs. simplify_eq.
    split; [by apply object_name_valid|by apply length_pretty_year_short].
Qed.

Lemma C2_object_key_template_witness :
  valid EXAMPLE_DATE ∧ (1000 ≤ year EXAMPLE_DATE)%N ∧
  get_object_name_dict EXAMPLE_DATE 5 !! "satellite_code" = Some "H09" ∧
  get_object_name_dict EXAMPLE_DATE 5 !! "band" = Some "B05" ∧
  get_object_name_dict EXAMPLE_DATE 5 !! "resolution" = Some "R20" ∧
  object_name EXAMPLE_DATE 5
  = Some (key_template (digits 4 2024) (digits 2 4) (digits 2 2)
            (digits 2 16) (digits 2 0) "H09" "B05" "R20").
Proof.
  assert (valid EXAMPLE_DATE) as Hv by valid_date.
  assert (1000 ≤ year EXAMPLE_DATE)%N as Hy by (cbn; lia).
  assert (get_object_name_dict EXAMPLE_DATE 5 !! "satellite_code"
          = Some "H09") as Hsc by (by vm_compute).
  assert (get_object_name_dict EXAMPLE_DATE 5 !! "band" = Some "B05")
    as Hbc by (by vm_compute).
  assert (get_object_name_dict EXAMPLE_DATE 5 !! "resolution" = Some "R20")
    as Hrs by (by vm_compute).
  split; [exact Hv|]. split; [exact Hy|]. split; [exact Hsc|].
  split; [exact Hbc|]. split; [exact Hrs|].
  exact (proj1 C2_object_key_template EXAMPLE_DATE 5%Z "H09" "B05" "R20"
           Hv Hy Hsc Hbc Hrs).
Defined.

(** C6. Two valid minute-granularity timestamps on the same side of the
    cutover and two integer bands, not both equal, get different object
    keys. *)
Theorem C6_object_key_injective d1 d2 b1 b2 :
  valid d1 → valid d2 → minute_granular d1 → minute_granular d2 →
  same_epoch d1 d2 → (d1, b1) ≠ (d2, b2) →
  ∃ k1 k2, object_name d1 b1 = Some k1 ∧ object_name d2 b2 = Some k2 ∧
           k1 ≠ k2.
Proof.
  intros Hv1 Hv2 [Hs1 Hus1] [Hs2 Hus2] _ Hne.
  exists (key_of d1 b1), (key_of d2 b2).
  split; [apply object_name_eq|]. split; [apply object_name_eq|].
  intros Heq. apply key_of_inj in Heq as [Hmin ->]; [|done..].
  apply Hne. f_equal.
  destruct d1, d2. unfold minute_of in Hmin. simpl in *. congruence.
Qed.

Lemma C6_object_key_injective_witness :
  valid EXAMPLE_DATE ∧ minute_granular EXAMPLE_DATE ∧
  same_epoch EXAMPLE_DATE EXAMPLE_DATE ∧
  (EXAMPLE_DATE, 4%Z) ≠ (EXAMPLE_DATE, 5%Z) ∧
  ∃ k1 k2, object_name EXAMPLE_DATE 4 = Some k1 ∧
           object_name EXAMPLE_DATE 5 = Some k2 ∧ k1 ≠ k2.
Proof.
  assert (valid EXAMPLE_DATE) as Hv by valid_date.
  assert (minute_granular EXAMPLE_DATE) as Hg by (split; reflexivity).
  assert (same_epoch EXAMPLE_DATE EXAMPLE_DATE) as He by reflexivity.
  assert ((EXAMPLE_DATE, 4%Z) ≠ (EXAMPLE_DATE, 5%Z)) as Hne by congruence.
  split; [exact Hv|]. split; [exact Hg|]. split; [exact He|].
  split; [exact Hne|].
  exact (C6_object_key_injective EXAMPLE_DATE EXAMPLE_DATE 4 5
           Hv Hv Hg Hg He Hne).
Defined.

End ObjectKey.

(** ** The fetcher *)
Section FetcherProperties.
Context {Env : Type}.
Variable op : Env → string → option string * Env.
Variable dl : Env → string → string → outcome * Env.
Implicit Types (d : datetime) (b : Z) (w : World Env) (bs : list Z).

Abbreviation band_step := (download_band op dl).
Abbreviation fetch := (download_files_for_date op dl).

(** A band whose destination exists is skipped: nothing changes. *)
Lemma download_band_present d b w :
  is_Some (files w !! dest_of d b) → band_step d b w = (w, inr ()).
Proof.
  intros Hsome. unfold download_band. rewrite format_dict_eq.
  unfold mbind, M_bind, or_raise, mret, M_ret, path_exists. cbv beta iota.
  rewrite basename_key_of. fold (dest_of d b).
  rewrite bool_decide_eq_true_2 by done. reflexivity.
Qed.

(** A band whose destination is missing is announced and its file is
    opened.  When the file system refuses, the error is raised: no file is
    made and the client is not called. *)
Lemma download_band_refused d b w msg e :
  files w !! dest_of d b = None →
  op (env w) (dest_of d b) = (Some msg, e) →
  band_step d b w =
  (mk_world (files w) (stdout w ++ ["Downloading " +:+ key_of d b]) e
     (attempts w),
   inl (OSError msg)).
Proof.
  intros Hnone Hop. unfold download_band. rewrite format_dict_eq.
  unfold mbind, M_bind, or_raise, mret, M_ret, path_exists. cbv beta iota.
  rewrite basename_key_of. fold (dest_of d b).
  rewrite bool_decide_eq_false_2 by (rewrite Hnone; by intros [? ?]).
  unfold print, open_wb. cbv beta iota zeta.
  cbn [negb files stdout env attempts]. rewrite Hop. reflexivity.
Qed.

(** When the file is opened, the client is called once; the file keeps
    what the call wrote, and the call's error, if any, is raised. *)
Lemma download_band_opened d b w e :
  files w !! dest_of d b = None →
  op (env w) (dest_of d b) = (None, e) →
  band_step d b w =
  let r := dl e (bucket_of d) (key_of d b) in
  (mk_world (<[dest_of d b := written_by r.1]> (files w))
     (stdout w ++ ["Downloading " +:+ key_of d b]) r.2
     (attempts w ++ [attempt_of d b]),
   ending_of r.1).
Proof.
  intros Hnone Hop. unfold download_band. rewrite format_dict_eq.
  unfold mbind, M_bind, or_raise, mret, M_ret, path_exists. cbv beta iota.
  rewrite basename_key_of. fold (dest_of d b).
  rewrite bool_decide_eq_false_2 by (rewrite Hnone; by intros [? ?]).
  rewrite dict_bucket_name.
  unfold print, open_wb. cbv beta iota zeta.
  cbn [negb files stdout env attempts]. rewrite Hop.
  unfold client_download, set_files. cbv beta iota zeta.
  cbn [files stdout env attempts].
  destruct (dl e (bucket_of d) (key_of d b)) as [[body|wr msg] e'];
    cbn [fst snd written_by ending_of]; by rewrite insert_insert_eq.
Qed.

Lemma output_file_name_eq d b : output_file_name d b = Some (dest_of d b).
Proof.
  unfold output_file_name. rewrite format_dict_eq. cbn [mbind option_bind].
  by rewrite basename_key_of.
Qed.

Lemma download_args_eq d b : download_args d b = Some (attempt_of d b).
Proof.
  unfold download_args. cbv zeta. rewrite format_dict_eq, dict_bucket_name.
  reflexivity.
Qed.

Lemma attempt_of_inj d b1 b2 : attempt_of d b1 = attempt_of d b2 → b1 = b2.
Proof.
  intros Heq. apply (f_equal snd) in Heq. unfold attempt_of in Heq.
  cbn [snd] in Heq. apply (f_equal basename) in Heq as Hkey.
  rewrite !basename_key_of in Hkey.
  by apply file_of_inj in Hkey.
Qed.

Lemma for_each_cons {A} (x : A) xs (body : A → M Env unit) w :
  for_each (x :: xs) body w =
  match body x w with
  | (w1, inl e) => (w1, inl e)
  | (w1, inr _) => for_each xs body w1
  end.
Proof. reflexivity. Qed.

Lemma for_each_app {A} (xs ys : list A) (body : A → M Env unit) w :
  for_each (xs ++ ys) body w =
  match for_each xs body w with
  | (w1, inl e) => (w1, inl e)
  | (w1, inr _) => for_each ys body w1
  end.
Proof.
  revert w. induction xs as [|x xs IH]; intros w; [done|].
  rewrite <-app_comm_cons, !for_each_cons.
  destruct (body x w) as [w1 [e|[]]]; [done|apply IH].
Qed.

Lemma new_attempts_eq (run : M Env unit) w new :
  attempts (run w).1 = attempts w ++ new → new_attempts run w = new.
Proof.
  intros Heq. unfold new_attempts. rewrite Heq. apply drop_app_length.
Qed.

(** *** What one band does, in both cases at once *)
Lemma download_band_frame d b w w1 r :
  band_step d b w = (w1, r) →
  (∀ p, is_Some (files w !! p) → files w1 !! p = files w !! p) ∧
  (∀ p, files w !! p = None → is_Some (files w1 !! p) → p = dest_of d b) ∧
  (∃ new, attempts w1 = attempts w ++ new ∧
          ∀ a, a ∈ new → a = attempt_of d b ∧ files w !! dest_of d b = None) ∧
  (r = inr () → is_Some (files w1 !! dest_of d b)).
Proof.
  destruct (files w !! dest_of d b) as [c|] eqn:Hdest.
  - rewrite download_band_present by (by rewrite Hdest).
    intros [= <- <-]. split_and!; [done| |exists []|by rewrite Hdest].
    + intros p Hnone [x Hx]. congruence.
    + rewrite app_nil_r. split; [done|]. intros a Ha. by apply elem_of_nil in Ha.
  - destruct (op (env w) (dest_of d b)) as [[omsg|] e] eqn:Hop.
    { rewrite (download_band_refused d b w omsg e) by done.
      intros [= <- <-]. cbn [files attempts]. split_and!; [done| |exists []|done].
      + intros p Hnone [x Hx]. congruence.
      + rewrite app_nil_r. split; [done|].
        intros a Ha. by apply elem_of_nil in Ha. }
    rewrite (download_band_opened d b w e) by done. cbv zeta.
    intros [= <- <-]. cbn [files attempts]. split_and!.
    + intros p [x Hx]. rewrite lookup_insert_ne; [done|]. congruence.
    + intros p Hnone Hsome. destruct (decide (dest_of d b = p)); [done|].
      rewrite lookup_insert_ne, Hnone in Hsome by done. by destruct Hsome.
    + exists [attempt_of d b]. split; [done|].
      intros a ->%list_elem_of_singleton. done.
    + intros _. by rewrite lookup_insert_eq.
Qed.

(** *** The loop over any list of bands: what it leaves alone *)
Lemma loop_frame bs d w w' r :
  for_each bs (band_step d) w = (w', r) →
  (∀ p, is_Some (files w !! p) → files w' !! p = files w !! p) ∧
  (∀ p, files w !! p = None → is_Some (files w' !! p) →
        ∃ b, b ∈ bs ∧ p = dest_of d b) ∧
  (∃ new, attempts w' = attempts w ++ new ∧
          ∀ a, a ∈ new → ∃ b, b ∈ bs ∧ a = attempt_of d b ∧
                              files w !! dest_of d b = None).
Proof.
  revert w. induction bs as [|b bs IH]; intros w.
  - intros [= <- <-]. split_and!; [done|..].
    + intros p Hnone [x Hx]. congruence.
    + exists []. rewrite app_nil_r. split; [done|].
      intros a Ha. by apply elem_of_nil in Ha.
  - rewrite for_each_cons.
    destruct (band_step d b w) as [w1 [e|[]]] eqn:Hstep;
      destruct (download_band_frame _ _ _ _ _ Hstep)
        as (Hkeep & Hnew & (new1 & Hatt1 & Hnew1) & Hdone).
    + intros [= <- <-]. split_and!; [done|..].
      * intros p Hnone Hsome. exists b. split; [left|]. by apply Hnew.
      * exists new1. split; [done|]. intros a Ha. exists b.
        split; [left|]. by apply Hnew1.
    + intros Hrest.
      destruct (IH _ Hrest) as (Hkeep' & Hnew' & (new2 & Hatt2 & Hnew2)).
      split_and!.
      * intros p Hp. rewrite Hkeep' by (by rewrite Hkeep). by apply Hkeep.
      * intros p Hnone Hsome.
        destruct (files w1 !! p) as [c|] eqn:Hp1.
        -- exists b. split; [left|]. apply Hnew; [done|]. by rewrite Hp1.
        -- destruct (Hnew' p Hp1 Hsome) as (b' & Hb' & ->).
           exists b'. split; [by right|done].
      * exists (new1 ++ new2). rewrite Hatt2, Hatt1, (assoc_L (++)).
        split; [done|]. intros a [Ha|Ha]%elem_of_app.
        -- exists b. split; [left|]. by apply Hnew1.
        -- destruct (Hnew2 a Ha) as (b' & Hb' & -> & Hnone1).
           exists b'. split_and!; [by right|done|].
           destruct (files w !! dest_of d b') as [c|] eqn:Hw; [|done].
           rewrite Hkeep in Hnone1 by (by rewrite Hw). congruence.
Qed.

Lemma pending_cons_present fs d b bs :
  is_Some (fs !! dest_of d b) → pending fs d (b :: bs) = pending fs d bs.
Proof.
  intros [c Hc]. unfold pending. rewrite filter_cons_False; [done|]. congruence.
Qed.

Lemma pending_cons_absent fs d b bs :
  fs !! dest_of d b = None → pending fs d (b :: bs) = b :: pending fs d bs.
Proof. intros Hnone. unfold pending. by rewrite filter_cons_True. Qed.

(** Creating the file of a band does not change which other bands are
    pending. *)
Lemma pending_insert fs d b x bs :
  b ∉ bs → pending (<[dest_of d b := x]> fs) d bs = pending fs d bs.
Proof.
  induction bs as [|b' bs IH]; intros Hnotin; [done|].
  apply not_elem_of_cons in Hnotin as [Hne Hnotin].
  assert (dest_of d b ≠ dest_of d b') as Hdest
    by (intros Heq; by apply dest_of_inj in Heq).
  destruct (fs !! dest_of d b') as [c|] eqn:Hb'.
  - rewrite !pending_cons_present; [by apply IH|by rewrite Hb'|].
    by rewrite lookup_insert_ne, Hb'.
  - rewrite !pending_cons_absent; [by rewrite IH|done|].
    by rewrite lookup_insert_ne.
Qed.

(** *** The loop over distinct bands: exactly what it attempts *)
Lemma loop_exact bs d w w' r :
  NoDup bs →
  for_each bs (band_step d) w = (w', r) →
  match r with
  | inr _ =>
      attempts w' = attempts w ++ (attempt_of d <$> pending (files w) d bs) ∧
      ∀ b, b ∈ bs → is_Some (files w' !! dest_of d b)
  | inl e =>
      ∃ bs1 b bs2,
        bs = bs1 ++ b :: bs2 ∧
        files w !! dest_of d b = None ∧
        attempts w' = attempts w ++
          (attempt_of d <$> pending (files w) d bs1) ++
          match e with ClientError _ => [attempt_of d b] | _ => [] end
  end.
Proof.
  intros Hnodup. revert w. induction bs as [|b0 bs IH]; intros w.
  { intros [= <- <-]. split; [by rewrite app_nil_r|].
    intros b Hb. by apply elem_of_nil in Hb. }
  apply NoDup_cons in Hnodup as [Hnotin Hnodup]. specialize (IH Hnodup).
  rewrite for_each_cons.
  destruct (files w !! dest_of d b0) as [c0|] eqn:Hdest.
  - (* the band is skipped *)
    rewrite download_band_present by (by rewrite Hdest).
    intros Hrest. specialize (IH _ Hrest).
    destruct (loop_frame _ _ _ _ _ Hrest) as (Hkeep & _).
    destruct r as [e|[]].
    + destruct IH as (bs1 & b & bs2 & -> & Hb & Hatt).
      exists (b0 :: bs1), b, bs2.
      rewrite pending_cons_present by (by rewrite Hdest). done.
    + destruct IH as [Hatt Hall].
      rewrite pending_cons_present by (by rewrite Hdest). split; [done|].
      intros b [->|Hb]%elem_of_cons; [|by apply Hall].
      rewrite Hkeep; by rewrite Hdest.
  - destruct (op (env w) (dest_of d b0)) as [[omsg|] e0] eqn:Hop.
    { (* the file cannot be opened *)
      rewrite (download_band_refused d b0 w omsg e0) by done.
      intros [= <- <-]. exists [], b0, bs. cbn [attempts].
      by rewrite !app_nil_r. }
    (* the band is downloaded *)
    rewrite (download_band_opened d b0 w e0) by done. cbv zeta.
    destruct (dl e0 (bucket_of d) (key_of d b0)) as [[body|wr msg] e1]
      eqn:Hdl; cbn [fst snd written_by ending_of].
    + intros Hrest. specialize (IH _ Hrest).
      destruct (loop_frame _ _ _ _ _ Hrest) as (Hkeep & _).
      cbn [files attempts] in *.
      destruct r as [e|[]].
      * destruct IH as (bs1 & b & bs2 & -> & Hb & Hatt).
        exists (b0 :: bs1), b, bs2.
        apply not_elem_of_app in Hnotin as [Hnotin1 Hnotin2].
        apply not_elem_of_cons in Hnotin2 as [Hne _].
        rewrite pending_insert in Hatt by done.
        rewrite pending_cons_absent by done.
        split_and!; [done| |].
        -- apply lookup_insert_None in Hb. tauto.
        -- rewrite Hatt. rewrite <-!(assoc_L (++)). reflexivity.
      * destruct IH as [Hatt Hall].
        rewrite pending_insert in Hatt by done.
        rewrite pending_cons_absent by done. split.
        -- rewrite Hatt, <-(assoc_L (++)). reflexivity.
        -- intros b [->|Hb]%elem_of_cons; [|by apply Hall].
           rewrite Hkeep; by rewrite lookup_insert_eq.
    + intros [= <- <-]. exists [], b0, bs. cbn [files attempts]. done.
Qed.

(** When every destination exists the loop changes nothing at all. *)
Lemma loop_all_present bs d w :
  (∀ b, b ∈ bs → is_Some (files w !! dest_of d b)) →
  for_each bs (band_step d) w = (w, inr ()).
Proof.
  induction bs as [|b bs IH]; intros Hall; [done|].
  rewrite for_each_cons, download_band_present by (apply Hall; left).
  apply IH. intros b' Hb'. apply Hall. by right.
Qed.

Lemma pending_all_absent fs d bs :
  (∀ b, b ∈ bs → fs !! dest_of d b = None) → pending fs d bs = bs.
Proof.
  induction bs as [|b bs IH]; intros Hall; [done|].
  rewrite pending_cons_absent by (apply Hall; left).
  f_equal. apply IH. intros b' Hb'. apply Hall. by right.
Qed.

Lemma range_1_7 : range 1 7 = [1; 2; 3; 4; 5; 6]%Z.
Proof. reflexivity. Qed.

Lemma NoDup_range_1_7 : NoDup (range 1 7).
Proof. rewrite range_1_7. by apply (bool_decide_unpack _). Qed.

(** Every attempt of a run is for one of the six bands, and for one whose
    destination was missing when the run started. *)
Lemma fetch_unfold d w : fetch d w = for_each (range 1 7) (band_step d) w.
Proof. reflexivity. Qed.

Lemma new_attempts_frame d w (a : string * string) :
  a ∈ new_attempts (fetch d) w →
  ∃ b, b ∈ range 1 7 ∧ a = attempt_of d b ∧ files w !! dest_of d b = None.
Proof.
  destruct (fetch d w) as [w' r] eqn:Hrun.
  pose proof Hrun as Hloop. rewrite fetch_unfold in Hloop.
  destruct (loop_frame (range 1 7) d w w' r Hloop)
    as (_ & _ & new & Hatt & Hnew).
  rewrite (new_attempts_eq (fetch d) w new) by (by rewrite Hrun). apply Hnew.
Qed.

Lemma new_attempts_skips d w b :
  is_Some (files w !! dest_of d b) → attempt_of d b ∉ new_attempts (fetch d) w.
Proof.
  intros [c Hc] Hin.
  apply new_attempts_frame in Hin as (b' & _ & Heq & Hnone).
  apply attempt_of_inj in Heq as ->. congruence.
Qed.

(** C4. Starting with none of the six destination files, a call that
    returns normally makes exactly the six download attempts of bands 1 to
    6, in order, and leaves all six files in place; the next call with the
    same timestamp makes no attempt and changes nothing. *)
Theorem C4_fetch_twice d w w1 :
  (∀ b path, b ∈ range 1 7 → output_file_name d b = Some path →
             files w !! path = None) →
  fetch d w = (w1, inr ()) →
  (download_args d <$> range 1 7 = Some <$> new_attempts (fetch d) w ∧
   length (new_attempts (fetch d) w) = 6) ∧
  (∀ b path, b ∈ range 1 7 → output_file_name d b = Some path →
             is_Some (files w1 !! path)) ∧
  new_attempts (fetch d) w1 = [] ∧
  fetch d w1 = (w1, inr ()).
Proof.
  intros Hnone Hrun.
  assert (∀ b, b ∈ range 1 7 → files w !! dest_of d b = None) as Hnone'.
  { intros b Hb. by apply (Hnone b), output_file_name_eq. }
  pose proof Hrun as Hloop. rewrite fetch_unfold in Hloop.
  destruct (loop_exact (range 1 7) d w w1 (inr ()) NoDup_range_1_7 Hloop)
    as [Hatt Hall].
  rewrite pending_all_absent in Hatt by done.
  assert (fetch d w1 = (w1, inr ())) as Hrun2
    by (rewrite fetch_unfold; by apply loop_all_present).
  rewrite (new_attempts_eq (fetch d) w (attempt_of d <$> range 1 7))
    by (by rewrite Hrun).
  split_and!.
  - rewrite <-list_fmap_compose. apply list_fmap_ext.
    intros i b _. apply download_args_eq.
  - by rewrite length_fmap.
  - intros b path Hb Hpath. rewrite output_file_name_eq in Hpath.
    injection Hpath as <-. by apply Hall.
  - apply new_attempts_eq. by rewrite Hrun2, app_nil_r.
  - done.
Qed.

(** C5. A band among 1 to 6 whose destination (the local directory joined
    with the basename of its key) exists when the call starts is not
    downloaded and its file keeps its contents; every attempt made, and
    every file created or changed, belongs to a band whose destination was
    missing. *)
Theorem C5_existing_files_kept d w b path content :
  b ∈ range 1 7 → output_file_name d b = Some path →
  files w !! path = Some content →
  files (fetch d w).1 !! path = Some content ∧
  (∀ a : string * string, download_args d b = Some a → a ∉ new_attempts (fetch d) w) ∧
  (∀ a : string * string, a ∈ new_attempts (fetch d) w →
        ∃ b' path', b' ∈ range 1 7 ∧ download_args d b' = Some a ∧
                    output_file_name d b' = Some path' ∧
                    files w !! path' = None) ∧
  (∀ p, files (fetch d w).1 !! p ≠ files w !! p →
        ∃ b', b' ∈ range 1 7 ∧ output_file_name d b' = Some p ∧
              files w !! p = None).
Proof.
  intros Hb Hpath Hcontent. rewrite output_file_name_eq in Hpath.
  injection Hpath as <-.
  destruct (fetch d w) as [w' r] eqn:Hrun. cbn [fst].
  pose proof Hrun as Hloop. rewrite fetch_unfold in Hloop.
  destruct (loop_frame (range 1 7) d w w' r Hloop) as (Hkeep & Hnew & _).
  split_and!.
  - rewrite Hkeep; by rewrite Hcontent.
  - intros a Ha. rewrite download_args_eq in Ha. injection Ha as <-.
    apply new_attempts_skips. by rewrite Hcontent.
  - intros a Ha. apply new_attempts_frame in Ha as (b' & Hb' & -> & Hnone).
    exists b', (dest_of d b').
    by rewrite download_args_eq, output_file_name_eq.
  - intros p Hp. destruct (files w !! p) as [c|] eqn:Hwp.
    + rewrite Hkeep in Hp by (by rewrite Hwp). congruence.
    + destruct (files w' !! p) as [c|] eqn:Hw'p; [|done].
      destruct (Hnew p Hwp) as (b' & Hb' & ->); [by rewrite Hw'p|].
      exists b'. by rewrite output_file_name_eq.
Qed.

(** C7. Let the bands before band [b] have gone through, let the
    destination of [b] be missing and its file be opened, and let the
    client's call for [b] fail after writing [written].  Then the call of
    [download_files_for_date] raises that very error; the failed attempt is
    the last one of the run and the only one for [b] (no retry); no band
    after [b] is attempted; the file of [b] stays with what was written and
    the files made before stay as they are (no cleanup, no rollback); and a
    later call that finds this file makes no attempt for [b]. *)
Theorem C7_failure_propagates d w done_bands b rest wb path bucket key
    e1 e2 written msg :
  range 1 7 = done_bands ++ b :: rest →
  for_each done_bands (band_step d) w = (wb, inr ()) →
  output_file_name d b = Some path →
  download_args d b = Some (bucket, key) →
  files wb !! path = None →
  op (env wb) path = (None, e1) →
  dl e1 bucket key = (Failed written msg, e2) →
  ∃ w', fetch d w = (w', inl (ClientError msg)) ∧
        env w' = e2 ∧
        files w' = <[path := written]> (files wb) ∧
        files w' !! path = Some written ∧
        new_attempts (fetch d) w
        = new_attempts (for_each done_bands (band_step d)) w
          ++ [(bucket, key)] ∧
        ((bucket, key) ∉ new_attempts (for_each done_bands (band_step d)) w) ∧
        (∀ b' (a : string * string), b' ∈ rest →
           download_args d b' = Some a → a ∉ new_attempts (fetch d) w) ∧
        ((bucket, key) ∉ new_attempts (fetch d) w') ∧
        (∀ w2, files w2 !! path = Some written →
               (bucket, key) ∉ new_attempts (fetch d) w2).
Proof.
  intros Hsplit Hpre Hpath Hargs Hnone Hop Hdl.
  rewrite output_file_name_eq in Hpath. apply (inj Some) in Hpath as <-.
  rewrite download_args_eq in Hargs. apply (inj Some) in Hargs.
  assert (bucket = bucket_of d ∧ key = key_of d b) as [-> ->]
    by (unfold attempt_of in Hargs; by injection Hargs).
  fold (attempt_of d b).
  pose proof (download_band_opened d b wb e1 Hnone Hop) as Hstep.
  cbv zeta in Hstep. rewrite Hdl in Hstep. cbn [fst snd written_by ending_of] in Hstep.
  destruct (loop_frame _ _ _ _ _ Hpre) as (_ & _ & new1 & Hatt1 & Hnew1).
  assert (new_attempts (for_each done_bands (band_step d)) w = new1) as Hpre_new
    by (apply new_attempts_eq; by rewrite Hpre).
  pose proof NoDup_range_1_7 as Hnodup. rewrite Hsplit in Hnodup.
  apply NoDup_app in Hnodup as (_ & Hdisj & [Hnotin _]%NoDup_cons).
  eexists. split.
  { rewrite fetch_unfold, Hsplit, for_each_app, Hpre, for_each_cons, Hstep.
    reflexivity. }
  cbn [env files].
  assert (new_attempts (fetch d) w = new1 ++ [attempt_of d b]) as Hnew.
  { apply new_attempts_eq.
    rewrite fetch_unfold, Hsplit, for_each_app, Hpre, for_each_cons, Hstep.
    cbn [fst attempts]. by rewrite Hatt1, <-(assoc_L (++)). }
  split; [reflexivity|]. split; [reflexivity|].
  split; [by rewrite lookup_insert_eq|]. rewrite Hpre_new.
  split; [exact Hnew|]. split; [|split; [|split]].
  - intros (b' & Hb' & Heq & _)%Hnew1.
    apply attempt_of_inj in Heq as <-. apply (Hdisj _ Hb'). left.
  - intros b' a Hb' Ha. rewrite download_args_eq in Ha.
    apply (inj Some) in Ha as <-.
    rewrite Hnew. intros [Hin|Hin%list_elem_of_singleton]%elem_of_app.
    + apply Hnew1 in Hin as (b'' & Hb'' & Heq & _).
      apply attempt_of_inj in Heq as <-. apply (Hdisj _ Hb''). by right.
    + apply attempt_of_inj in Hin as ->. exact (Hnotin Hb').
  - apply new_attempts_skips. cbn [files]. by rewrite lookup_insert_eq.
  - intros w2 Hw2. apply new_attempts_skips. by rewrite Hw2.
Qed.

End FetcherProperties.

(** ** The fetcher on concrete worlds *)
Section FetcherExamples.

Lemma C4_fetch_twice_witness :
  let run := download_files_for_date always_opens always_ok EXAMPLE_DATE in
  let w1 := (run empty_world).1 in
  (∀ b path, b ∈ range 1 7 → output_file_name EXAMPLE_DATE b = Some path →
             files empty_world !! path = None) ∧
  run empty_world = (w1, inr ()) ∧
  (download_args EXAMPLE_DATE <$> range 1 7
   = Some <$> new_attempts run empty_world ∧
   length (new_attempts run empty_world) = 6) ∧
  (∀ b path, b ∈ range 1 7 → output_file_name EXAMPLE_DATE b = Some path →
             is_Some (files w1 !! path)) ∧
  new_attempts run w1 = [] ∧
  run w1 = (w1, inr ()).
Proof.
  intros run w1.
  assert (∀ b path, b ∈ range 1 7 →
            output_file_name EXAMPLE_DATE b = Some path →
            files empty_world !! path = None) as Hnone
    by (intros; apply lookup_empty).
  assert (run empty_world = (w1, inr ())) as Hrun by (vm_compute; reflexivity).
  split; [exact Hnone|]. split; [exact Hrun|].
  exact (C4_fetch_twice always_opens always_ok EXAMPLE_DATE empty_world w1
           Hnone Hrun).
Defined.

Lemma C5_existing_files_kept_witness :
  let run := download_files_for_date always_opens always_ok EXAMPLE_DATE in
  4%Z ∈ range 1 7 ∧
  output_file_name EXAMPLE_DATE 4 = Some band4_file ∧
  files band4_world !! band4_file = Some [Byte.x2a] ∧
  files (run band4_world).1 !! band4_file = Some [Byte.x2a] ∧
  (∀ a : string * string,
     download_args EXAMPLE_DATE 4 = Some a → a ∉ new_attempts run band4_world) ∧
  (∀ a : string * string, a ∈ new_attempts run band4_world →
     ∃ b' path', b' ∈ range 1 7 ∧ download_args EXAMPLE_DATE b' = Some a ∧
                 output_file_name EXAMPLE_DATE b' = Some path' ∧
                 files band4_world !! path' = None) ∧
  (∀ p, files (run band4_world).1 !! p ≠ files band4_world !! p →
        ∃ b', b' ∈ range 1 7 ∧ output_file_name EXAMPLE_DATE b' = Some p ∧
              files band4_world !! p = None).
Proof.
  intros run.
  assert (4%Z ∈ range 1 7) as Hb by (by apply (bool_decide_unpack _)).
  assert (output_file_name EXAMPLE_DATE 4 = Some band4_file) as Hpath
    by (vm_compute; reflexivity).
  assert (files band4_world !! band4_file = Some [Byte.x2a]) as Hfile
    by (vm_compute; reflexivity).
  split; [exact Hb|]. split; [exact Hpath|]. split; [exact Hfile|].
  exact (C5_existing_files_kept always_opens always_ok EXAMPLE_DATE
           band4_world 4
           band4_file [Byte.x2a] Hb Hpath Hfile).
Defined.

Lemma C7_failure_propagates_witness :
  let step := download_band always_opens fails_on_band3 EXAMPLE_DATE in
  let run := download_files_for_date always_opens fails_on_band3 EXAMPLE_DATE in
  range 1 7 = [1; 2]%Z ++ 3%Z :: [4; 5; 6]%Z ∧
  for_each [1; 2]%Z step empty_world = (after_two_bands, inr ()) ∧
  output_file_name EXAMPLE_DATE 3 = Some band3_file ∧
  download_args EXAMPLE_DATE 3 = Some ("noaa-himawari9", band3_key) ∧
  files after_two_bands !! band3_file = None ∧
  always_opens (env after_two_bands) band3_file = (None, tt) ∧
  fails_on_band3 tt "noaa-himawari9" band3_key
  = (Failed [Byte.x2a] "NoSuchKey", tt) ∧
  ∃ w', run empty_world = (w', inl (ClientError "NoSuchKey")) ∧
        env w' = tt ∧
        files w' = <[band3_file := [Byte.x2a]]> (files after_two_bands) ∧
        files w' !! band3_file = Some [Byte.x2a] ∧
        new_attempts run empty_world
        = new_attempts (for_each [1; 2]%Z step) empty_world
          ++ [("noaa-himawari9", band3_key)] ∧
        (("noaa-himawari9", band3_key)
         ∉ new_attempts (for_each [1; 2]%Z step) empty_world) ∧
        (∀ b' (a : string * string), b' ∈ [4; 5; 6]%Z →
           download_args EXAMPLE_DATE b' = Some a →
           a ∉ new_attempts run empty_world) ∧
        (("noaa-himawari9", band3_key) ∉ new_attempts run w') ∧
        (∀ w2, files w2 !! band3_file = Some [Byte.x2a] →
               ("noaa-himawari9", band3_key) ∉ new_attempts run w2).
Proof.
  intros step run.
  assert (range 1 7 = [1; 2]%Z ++ 3%Z :: [4; 5; 6]%Z) as Hsplit by reflexivity.
  assert (for_each [1; 2]%Z step empty_world = (after_two_bands, inr ()))
    as Hpre by (vm_compute; reflexivity).
  assert (output_file_name EXAMPLE_DATE 3 = Some band3_file) as Hpath
    by (vm_compute; reflexivity).
  assert (download_args EXAMPLE_DATE 3 = Some ("noaa-himawari9", band3_key))
    as Hargs by (vm_compute; reflexivity).
  assert (files after_two_bands !! band3_file = None) as Hnone
    by (vm_compute; reflexivity).
  assert (always_opens (env after_two_bands) band3_file = (None, tt)) as Hop
    by (vm_compute; reflexivity).
  assert (fails_on_band3 tt "noaa-himawari9" band3_key
          = (Failed [Byte.x2a] "NoSuchKey", tt)) as Hdl
    by (vm_compute; reflexivity).
  split; [exact Hsplit|]. split; [exact Hpre|]. split; [exact Hpath|].
  split; [exact Hargs|]. split; [exact Hnone|]. split; [exact Hop|].
  split; [exact Hdl|].
  exact (C7_failure_propagates always_opens fails_on_band3 EXAMPLE_DATE
           empty_world [1; 2]%Z 3 [4; 5; 6]%Z after_two_bands band3_file
           "noaa-himawari9" band3_key tt tt [Byte.x2a] "NoSuchKey"
           Hsplit Hpre Hpath Hargs Hnone Hop Hdl).
Defined.

End FetcherExamples.

(** ** More on the key builder and the text helpers *)
Section KeyBuilderMore.
Implicit Types (d : datetime) (b : Z).

(** Formatting [OBJECT_NAME_PATTERN] succeeds exactly when the keywords hold
    its eight fields; any one missing is a [KeyError]. *)
Theorem format_pattern_needs_fields (kw : gmap string string) :
  is_Some (format OBJECT_NAME_PATTERN kw) ↔
  ∀ k, k ∈ pattern_fields → is_Some (kw !! k).
Proof.
  split.
  - intros Hsome. unfold format in Hsome.
    let p := eval vm_compute in OBJECT_NAME_PATTERN in
    change OBJECT_NAME_PATTERN with p in Hsome.
    cbn -[String.app] in Hsome.
    repeat match type of Hsome with
           | context [kw !! ?key] =>
               destruct (kw !! key) eqn:?; cbn -[String.app] in Hsome;
               [|by apply is_Some_None in Hsome]
           end.
    intros k Hk. unfold pattern_fields in Hk.
    repeat (apply elem_of_cons in Hk as [->|Hk]; [eexists; eassumption|]).
    by apply elem_of_nil in Hk.
  - intros Hall.
    assert (∀ k, k ∈ pattern_fields → ∃ v, kw !! k = Some v) as Hget
      by (intros k Hk; exact (Hall k Hk)).
    unfold pattern_fields in Hget.
    destruct (Hget "year" ltac:(by apply (bool_decide_unpack _))) as [y Hy].
    destruct (Hget "month" ltac:(by apply (bool_decide_unpack _))) as [m Hm].
    destruct (Hget "day" ltac:(by apply (bool_decide_unpack _))) as [dd Hd].
    destruct (Hget "hour" ltac:(by apply (bool_decide_unpack _))) as [h Hh].
    destruct (Hget "minute" ltac:(by apply (bool_decide_unpack _))) as [mi Hmi].
    destruct (Hget "satellite_code" ltac:(by apply (bool_decide_unpack _))) as [sc Hsc].
    destruct (Hget "band" ltac:(by apply (bool_decide_unpack _))) as [bc Hbc].
    destruct (Hget "resolution" ltac:(by apply (bool_decide_unpack _))) as [rs Hrs].
    rewrite (format_pattern kw y m dd h mi sc bc rs) by done. by eexists.
Qed.

(** Two different integer bands never get the same band code, in or out of
    the range 1 to 6 and whatever the timestamps. *)
Theorem band_code_distinct d1 d2 b1 b2 :
  b1 ≠ b2 →
  get_object_name_dict d1 b1 !! "band" ≠ get_object_name_dict d2 b2 !! "band".
Proof.
  intros Hne. rewrite !dict_band. unfold band_code. intros [= Heq].
  by apply format_0d_2_inj in Heq.
Qed.

Lemma band_code_distinct_witness :
  (100 ≠ 10)%Z ∧
  get_object_name_dict EXAMPLE_DATE 100 !! "band"
  ≠ get_object_name_dict CUTOVER 10 !! "band".
Proof.
  assert (100 ≠ 10)%Z as Hne by lia.
  split; [exact Hne|].
  exact (band_code_distinct EXAMPLE_DATE CUTOVER 100 10 Hne).
Defined.

(** The local destination alone tells the minute and the band of a valid
    timestamp: two downloads share a local file only when they are for the
    same minute and the same band. *)
Theorem output_file_name_inj d1 d2 b1 b2 :
  valid d1 → valid d2 →
  output_file_name d1 b1 = output_file_name d2 b2 →
  minute_of d1 = minute_of d2 ∧ b1 = b2.
Proof.
  intros Hv1 Hv2. rewrite !output_file_name_eq. intros Heq.
  apply (inj Some) in Heq. unfold dest_of, path_join in Heq.
  do 2 apply (inj (String.app _)) in Heq.
  by apply file_of_inj_valid.
Qed.

Lemma output_file_name_inj_witness :
  valid (mk_datetime 2024 4 2 16 0 0 0) ∧
  valid (mk_datetime 2024 4 2 16 0 30 5) ∧
  output_file_name (mk_datetime 2024 4 2 16 0 0 0) 4
  = output_file_name (mk_datetime 2024 4 2 16 0 30 5) 4 ∧
  minute_of (mk_datetime 2024 4 2 16 0 0 0)
  = minute_of (mk_datetime 2024 4 2 16 0 30 5) ∧ 4%Z = 4%Z.
Proof.
  assert (valid (mk_datetime 2024 4 2 16 0 0 0)) as Hv1 by valid_date.
  assert (valid (mk_datetime 2024 4 2 16 0 30 5)) as Hv2 by valid_date.
  assert (output_file_name (mk_datetime 2024 4 2 16 0 0 0) 4
          = output_file_name (mk_datetime 2024 4 2 16 0 30 5) 4) as Heq
    by (vm_compute; reflexivity).
  split; [exact Hv1|]. split; [exact Hv2|]. split; [exact Heq|].
  exact (output_file_name_inj _ _ 4 4 Hv1 Hv2 Heq).
Defined.

Lemma basename_go_cases p cur :
  (no_slash p = true ∧ basename_go p cur = cur) ∨
  (∃ q, p = q +:+ "/" +:+ basename_go p cur ∧
        no_slash (basename_go p cur) = true).
Proof.
  revert cur. induction p as [|c p IH]; intros cur; [by left|].
  cbn [basename_go no_slash]. destruct (Ascii.eqb c "/") eqn:Hc.
  - apply Ascii.eqb_eq in Hc as ->. right.
    destruct (IH p) as [[Hns ->]|(q & Hq & Hns)].
    + exists "". by rewrite string_app_nil_l.
    + exists (String "/" q). rewrite string_app_cons. by rewrite <-Hq.
  - destruct (IH cur) as [[Hns ->]|(q & Hq & Hns)]; [by left|right].
    exists (String c q). rewrite string_app_cons. by rewrite <-Hq.
Qed.

(** [basename] splits a path at its last slash: what it returns has no
    slash, and the path is that text after a prefix that is empty or ends
    with a slash. *)
Theorem basename_is_final_segment (p : string) :
  no_slash (basename p) = true ∧
  ∃ pre, p = pre +:+ basename p ∧ (pre = "" ∨ ∃ q, pre = q +:+ "/").
Proof.
  unfold basename.
  destruct (basename_go_cases p p) as [[Hns ->]|(q & Hq & Hns)].
  - split; [done|]. exists "". split; [done|by left].
  - split; [done|]. exists (q +:+ "/"). split; [|right; by exists q].
    by rewrite string_app_assoc.
Qed.

End KeyBuilderMore.

(** ** More on the fetcher *)
Section FetcherMore.
Context {Env : Type}.
Variable op : Env → string → option string * Env.
Variable dl : Env → string → string → outcome * Env.
Implicit Types (d : datetime) (b : Z) (w : World Env) (bs : list Z).

Abbreviation band_step' := (download_band op dl).
Abbreviation fetch' := (download_files_for_date op dl).

Lemma dict_same_minute d1 d2 b :
  minute_of d1 = minute_of d2 →
  get_object_name_dict d1 b = get_object_name_dict d2 b.
Proof.
  intros Hmin. pose proof (lt_cutover_minute d1 d2 Hmin) as Hlt.
  unfold get_object_name_dict. rewrite Hlt.
  rewrite !strftime_Y, !strftime_m, !strftime_d, !strftime_H, !strftime_M.
  unfold minute_of in Hmin. injection Hmin as -> -> -> -> ->. done.
Qed.

Lemma dest_of_same_minute d1 d2 b :
  minute_of d1 = minute_of d2 → dest_of d1 b = dest_of d2 b.
Proof.
  intros Hmin. apply (inj Some). rewrite <-!output_file_name_eq.
  unfold output_file_name. by rewrite (dict_same_minute d1 d2 b Hmin).
Qed.

Lemma missing_bands_pending fs d : missing_bands fs d = pending fs d (range 1 7).
Proof.
  unfold missing_bands, pending. apply list_filter_iff. intros b.
  by rewrite output_file_name_eq.
Qed.


(** The bands the loop serves when every file is opened and every call
    completes, and what is in their files afterwards. *)
Lemma loop_mirror (remote : string → string → bytes) bs d w :
  (∀ e path, (op e path).1 = None) →
  (∀ e bucket key, (dl e bucket key).1 = Completed (remote bucket key)) →
  NoDup bs →
  ∃ w1, for_each bs (band_step' d) w = (w1, inr ()) ∧
        ∀ b, b ∈ bs →
             files w1 !! dest_of d b
             = Some (default (remote (bucket_of d) (key_of d b))
                       (files w !! dest_of d b)).
Proof.
  intros Hop Hdl Hnodup. revert w. induction bs as [|b0 bs IH]; intros w.
  { exists w. split; [done|]. intros b Hb. by apply elem_of_nil in Hb. }
  apply NoDup_cons in Hnodup as [Hnotin Hnodup]. specialize (IH Hnodup).
  rewrite for_each_cons.
  destruct (files w !! dest_of d b0) as [c0|] eqn:Hdest.
  - rewrite download_band_present by (by rewrite Hdest).
    destruct (IH w) as (w1 & Hrest & Hall). exists w1. split; [done|].
    destruct (loop_frame op dl bs d w w1 (inr ()) Hrest) as (Hkeep & _).
    intros b [->|Hb]%elem_of_cons; [|by apply Hall].
    rewrite Hkeep; by rewrite Hdest.
  - specialize (Hop (env w) (dest_of d b0)).
    destruct (op (env w) (dest_of d b0)) as [o e0] eqn:Hopen.
    cbn [fst] in Hop. subst o.
    rewrite (download_band_opened op dl d b0 w e0) by done. cbv zeta.
    specialize (Hdl e0 (bucket_of d) (key_of d b0)).
    destruct (dl e0 (bucket_of d) (key_of d b0)) as [r e1].
    cbn [fst snd] in *. subst r. cbn [written_by ending_of].
    match goal with
    | |- context [for_each bs _ ?w0] => destruct (IH w0) as (w1 & Hrest & Hall)
    end.
    exists w1. split; [done|].
    destruct (loop_frame op dl bs d _ w1 (inr ()) Hrest) as (Hkeep & _).
    cbn [files] in Hkeep, Hall.
    intros b [->|Hb]%elem_of_cons.
    + rewrite Hkeep; rewrite lookup_insert_eq; [|done]. by rewrite Hdest.
    + rewrite (Hall b Hb). rewrite lookup_insert_ne; [done|].
      intros Heq%dest_of_inj. congruence.
Qed.

(** A call for any timestamp of a minute that a normal call has already
    served makes no attempt and changes nothing: the local files are keyed
    by minute, not by second. *)
Theorem same_minute_is_cached d1 d2 w w1 :
  minute_of d1 = minute_of d2 →
  fetch' d1 w = (w1, inr ()) →
  fetch' d2 w1 = (w1, inr ()) ∧ new_attempts (fetch' d2) w1 = [].
Proof.
  intros Hmin Hrun. rewrite fetch_unfold in Hrun.
  destruct (loop_exact op dl (range 1 7) d1 w w1 (inr ()) NoDup_range_1_7 Hrun)
    as [_ Hall].
  assert (fetch' d2 w1 = (w1, inr ())) as Hrun2.
  { rewrite fetch_unfold. apply loop_all_present. intros b Hb.
    rewrite <-(dest_of_same_minute d1 d2 b Hmin). by apply Hall. }
  split; [exact Hrun2|]. apply new_attempts_eq. by rewrite Hrun2, app_nil_r.
Qed.

(** A call that returns normally has attempted exactly the bands whose
    destination was missing, once each and in increasing band order;
    afterwards all six destinations exist and a second call changes
    nothing. *)
Theorem fetch_downloads_missing d w w1 :
  fetch' d w = (w1, inr ()) →
  download_args d <$> missing_bands (files w) d
  = Some <$> new_attempts (fetch' d) w ∧
  (∀ b path, b ∈ range 1 7 → output_file_name d b = Some path →
             is_Some (files w1 !! path)) ∧
  fetch' d w1 = (w1, inr ()).
Proof.
  intros Hrun. pose proof Hrun as Hloop. rewrite fetch_unfold in Hloop.
  destruct (loop_exact op dl (range 1 7) d w w1 (inr ()) NoDup_range_1_7 Hloop)
    as [Hatt Hall].
  rewrite (new_attempts_eq (fetch' d) w
             (attempt_of d <$> pending (files w) d (range 1 7)))
    by (by rewrite Hrun).
  split; [|split].
  - rewrite missing_bands_pending, <-list_fmap_compose. apply list_fmap_ext.
    intros i b _. apply download_args_eq.
  - intros b path Hb Hpath. rewrite output_file_name_eq in Hpath.
    injection Hpath as <-. by apply Hall.
  - rewrite fetch_unfold. by apply loop_all_present.
Qed.


(** With a file system that opens every file and a client whose calls all
    complete, with bodies that depend only on the bucket and the key, a
    call returns normally from any world, and each of the six destinations
    then holds what it held before if it existed, and the body of its
    object otherwise. *)
Theorem fetch_mirrors_remote (remote : string → string → bytes) d w :
  (∀ e path, (op e path).1 = None) →
  (∀ e bucket key, (dl e bucket key).1 = Completed (remote bucket key)) →
  ∃ w1, fetch' d w = (w1, inr ()) ∧
        ∀ b path bucket key,
          b ∈ range 1 7 → output_file_name d b = Some path →
          download_args d b = Some (bucket, key) →
          files w1 !! path
          = Some (default (remote bucket key) (files w !! path)).
Proof.
  intros Hop Hdl.
  destruct (loop_mirror remote (range 1 7) d w Hop Hdl NoDup_range_1_7)
    as (w1 & Hrun & Hall).
  exists w1. split; [by rewrite fetch_unfold|].
  intros b path bucket key Hb Hpath Hargs.
  rewrite output_file_name_eq in Hpath. injection Hpath as <-.
  rewrite download_args_eq in Hargs. apply (inj Some) in Hargs.
  unfold attempt_of in Hargs. injection Hargs as <- <-. by apply Hall.
Qed.

(** For every timestamp and every integer band, in or out of range, the
    destination path that the loop tests and opens is "data/" followed by
    the basename of the key, a non-empty name without a slash: no key makes
    the path string leave [DATA_DIR]. *)
Theorem destination_in_data_dir d b :
  ∃ key name,
    object_name d b = Some key ∧ name = basename key ∧
    output_file_name d b = Some ("data/" +:+ name) ∧
    no_slash name = true ∧ name ≠ "".
Proof.
  exists (key_of d b), (file_of d b).
  split; [apply object_name_eq|]. split; [by rewrite basename_key_of|].
  split; [|split].
  - rewrite output_file_name_eq. unfold dest_of, path_join, DATA_DIR.
    by rewrite <-string_app_assoc.
  - apply no_slash_file_of.
  - rewrite file_of_split, !string_app_assoc. done.
Qed.

(** A call makes at most six attempts, never two for the same object, and
    all of them in the one bucket chosen by the timestamp. *)
Theorem fetch_attempts_bounded d w :
  length (new_attempts (fetch' d) w) ≤ 6 ∧
  NoDup (new_attempts (fetch' d) w) ∧
  ∀ a : string * string, a ∈ new_attempts (fetch' d) w →
    a.1 = if lt d CUTOVER then HIMAWARI_8_BUCKET else HIMAWARI_9_BUCKET.
Proof.
  assert (Inj (=) (=) (attempt_of d)) as Hinj
    by (intros b1 b2; apply attempt_of_inj).
  assert (∃ bs, new_attempts (fetch' d) w = attempt_of d <$> bs ∧
                NoDup bs ∧ length bs ≤ 6) as (bs & -> & Hnd & Hlen).
  { destruct (fetch' d w) as [w' [e|[]]] eqn:Hrun;
      pose proof Hrun as Hloop; rewrite fetch_unfold in Hloop;
      pose proof (loop_exact op dl (range 1 7) d w w' _ NoDup_range_1_7 Hloop)
        as Hexact; cbv beta iota in Hexact.
    - destruct Hexact as (bs1 & b & bs2 & Hsplit & _ & Hatt).
      pose proof NoDup_range_1_7 as Hnodup. rewrite Hsplit in Hnodup.
      apply NoDup_app in Hnodup as (Hnd1 & Hdisj & _).
      pose proof (f_equal length Hsplit) as Hlen. rewrite range_1_7 in Hlen.
      rewrite length_app in Hlen. cbn [length] in Hlen.
      pose proof (length_filter (λ b, files w !! dest_of d b = None) bs1)
        as Hfilter.
      exists (pending (files w) d bs1
              ++ match e with ClientError _ => [b] | _ => [] end).
      split; [|split].
      + apply new_attempts_eq. rewrite Hrun. cbn [fst]. rewrite Hatt, fmap_app.
        by destruct e.
      + apply NoDup_app. split; [by apply NoDup_filter|]. split.
        * intros b' [_ Hb']%list_elem_of_filter Hin. destruct e;
            try (by apply elem_of_nil in Hin).
          apply list_elem_of_singleton in Hin as ->. apply (Hdisj _ Hb'). left.
        * destruct e; (apply NoDup_nil_2 || apply NoDup_singleton).
      + rewrite length_app. unfold pending.
        destruct e; cbn [length]; lia.
    - destruct Hexact as [Hatt _]. exists (pending (files w) d (range 1 7)).
      split; [apply new_attempts_eq; by rewrite Hrun|].
      split; [apply NoDup_filter, NoDup_range_1_7|].
      pose proof (length_filter (λ b, files w !! dest_of d b = None)
                    (range 1 7)) as Hfilter.
      unfold pending. rewrite range_1_7 in *. cbn [length] in *. lia. }
  split; [by rewrite length_fmap|]. split; [by apply (NoDup_fmap_2 _)|].
  intros a (b & -> & _)%list_elem_of_fmap. done.
Qed.

End FetcherMore.

(** ** More of the fetcher on concrete worlds *)
Section FetcherMoreExamples.

Lemma same_minute_is_cached_witness :
  let later := mk_datetime 2024 4 2 16 0 30 5 in
  let run := download_files_for_date always_opens always_ok in
  let w1 := (run EXAMPLE_DATE empty_world).1 in
  minute_of EXAMPLE_DATE = minute_of later ∧
  run EXAMPLE_DATE empty_world = (w1, inr ()) ∧
  run later w1 = (w1, inr ()) ∧
  new_attempts (run later) w1 = [].
Proof.
  intros later run w1.
  assert (minute_of EXAMPLE_DATE = minute_of later) as Hmin by reflexivity.
  assert (run EXAMPLE_DATE empty_world = (w1, inr ())) as Hrun
    by (vm_compute; reflexivity).
  split; [exact Hmin|]. split; [exact Hrun|].
  exact (same_minute_is_cached always_opens always_ok EXAMPLE_DATE later
           empty_world w1 Hmin Hrun).
Defined.

Lemma fetch_downloads_missing_witness :
  let run := download_files_for_date always_opens always_ok EXAMPLE_DATE in
  let w1 := (run band4_world).1 in
  run band4_world = (w1, inr ()) ∧
  download_args EXAMPLE_DATE <$> missing_bands (files band4_world) EXAMPLE_DATE
  = Some <$> new_attempts run band4_world ∧
  (∀ b path, b ∈ range 1 7 → output_file_name EXAMPLE_DATE b = Some path →
             is_Some (files w1 !! path)) ∧
  run w1 = (w1, inr ()).
Proof.
  intros run w1.
  assert (run band4_world = (w1, inr ())) as Hrun by (vm_compute; reflexivity).
  split; [exact Hrun|].
  exact (fetch_downloads_missing always_opens always_ok EXAMPLE_DATE
           band4_world w1 Hrun).
Defined.


Lemma fetch_mirrors_remote_witness :
  (∀ (e : unit) (path : string), (always_opens e path).1 = None) ∧
  (∀ (e : unit) (bucket key : string),
     (always_ok e bucket key).1 = Completed []) ∧
  ∃ w1, download_files_for_date always_opens always_ok EXAMPLE_DATE band4_world
        = (w1, inr ()) ∧
        ∀ b path (bucket key : string),
          b ∈ range 1 7 → output_file_name EXAMPLE_DATE b = Some path →
          download_args EXAMPLE_DATE b = Some (bucket, key) →
          files w1 !! path = Some (default [] (files band4_world !! path)).
Proof.
  assert (∀ (e : unit) (path : string), (always_opens e path).1 = None)
    as Hop by (intros; reflexivity).
  assert (∀ (e : unit) (bucket key : string),
            (always_ok e bucket key).1 = Completed []) as Hdl
    by (intros; reflexivity).
  split; [exact Hop|]. split; [exact Hdl|].
  exact (fetch_mirrors_remote always_opens always_ok (λ _ _, []) EXAMPLE_DATE
           band4_world Hop Hdl).
Defined.

End FetcherMoreExamples.
